(** * A shallow embedding of the credits SDK (src/client.ts, src/pricing.ts,
      src/errors.ts, src/types.ts)

    The ledger client talks to a Redis store through three embedded Lua
    scripts and a handful of plain commands.  The development models

    - JavaScript and Lua numbers as the rationals that doubles denote
      ([Qc]), plus [NaN] and the two infinities on the JavaScript side.
      Sums, differences and products are rounded to the nearest double,
      ties to even, and overflow to an infinity ([binary64]); the sign of
      zero is not represented.  A numeral read by [parseFloat] is taken
      at its decimal value; the balances that the scripts write into
      their messages have at most 14 significant digits;
    - JavaScript strings as [string], one character per code unit (code
      units above 255 are not represented);
    - the Redis keyspace as two finite maps, one for the scalar keys
      (which hold the text of a finite number, represented by that
      number) and one for the sorted sets, and a counter of the requests
      the client has sent;
    - the Lua scripts as functions on that keyspace, run atomically.  A
      number in the reply of a script reaches the client as an integer,
      its fraction dropped, as Redis converts it;
    - the members of a sorted set as the transactions they serialise, or
      as text that is not JSON.  The client parses what the store
      returns before it hands it over: a serialised transaction arrives
      as an object, other text as a string ([deserialised]);
    - the pricing tables as objects of a heap, so that two engines built
      without a table of their own share the one table [PRICING_CONFIG],
      and a property read follows the prototype chain to
      [Object.prototype];
    - exceptions as the [Throw] branch of a result type.

    A script or command with a step that the model cannot represent (a
    non-finite number written to a key, a number in a reply that is no
    64-bit integer, a read that yields a value of another type than the
    interface declares) ends the call with [Throw OutsideModel], the
    keys as they were before that script or command; no statement below
    is about such a call.

    [Date.now()] and [Math.random()] are inputs of every operation.  The
    store itself does not fail: the only error it replies with is the
    one the [deduct] script raises. *)

From Stdlib Require Import ZArith QArith Qcanon Qround Ascii String Floats.
From Stdlib Require Import DecimalString DecimalFacts DecimalN DecimalZ Permutation Lia.
From stdpp Require Import base option list gmap strings.

#[local] Open Scope string_scope.
#[local] Open Scope Z_scope.

(** ** JavaScript numbers *)

Inductive number : Type :=
| Fin (q : Qc)
| NaN
| PosInf
| NegInf.

Definition Qc_leb (x y : Qc) : bool := Qle_bool x y.
Definition Qc_ltb (x y : Qc) : bool := negb (Qle_bool y x).
Definition Qc_eqb (x y : Qc) : bool := Qeq_bool x y.

(** An integer as a finite number. *)
Definition of_Z (z : Z) : Qc := Q2Qc (inject_Z z).

(** The integer a finite number denotes, when it denotes one. *)
Definition as_integer (q : Qc) : option Z :=
  if Pos.eqb (Qden q) 1 then Some (Qnum q) else None.

(** The integer part of a finite number: the fraction is dropped. *)
Definition truncate (q : Qc) : Z := Z.quot (Qnum q) (Zpos (Qden q)).

(** [n / d] rounded to the nearest integer, ties to even. *)
Definition round_half_even (n d : Z) : Z :=
  let q := n / d in
  match 2 * (n mod d) ?= d with
  | Lt => q
  | Gt => q + 1
  | Eq => if Z.even q then q else q + 1
  end.

(** [floor (log2 (n / d))] for positive [n] and [d]. *)
Definition log2_floor (n d : Z) : Z :=
  let x0 := Z.log2 n - Z.log2 d in
  let reached := if 0 <=? x0 then d * 2 ^ x0 <=? n else d <=? n * 2 ^ (- x0) in
  if reached then x0 else x0 - 1.

(** The double nearest to a rational, ties to even (IEEE 754 binary64,
    round to nearest): 53 significant bits, the exponent of the last bit
    no lower than [-1074], and an infinity from [2^1024] on. *)
Definition binary64 (q : Qc) : number :=
  let n := Z.abs (Qnum q) in
  let d := Zpos (Qden q) in
  if n =? 0 then Fin 0 else
  let e := Z.max (log2_floor n d - 52) (-1074) in
  let m := if 0 <=? e then round_half_even n (d * 2 ^ e)
           else round_half_even (n * 2 ^ (- e)) d in
  if (0 <=? e) && (2 ^ 1024 <=? m * 2 ^ e) then
    (if Qnum q <? 0 then NegInf else PosInf)
  else
    let v := if 0 <=? e then of_Z (m * 2 ^ e)
             else Q2Qc (Qred (m # Z.to_pos (2 ^ (- e)))) in
    Fin (if Qnum q <? 0 then (- v)%Qc else v).

(** The number that a double of the machine denotes, to compare
    [binary64] with the arithmetic of the floating-point unit. *)
Definition of_float (f : float) : number :=
  match Prim2SF f with
  | SpecFloat.S754_zero _ => Fin 0
  | SpecFloat.S754_infinity negative => if negative then NegInf else PosInf
  | SpecFloat.S754_nan => NaN
  | SpecFloat.S754_finite negative m e =>
      let v := if 0 <=? e then of_Z (Zpos m * 2 ^ e)
               else Q2Qc (Qred (Zpos m # Z.to_pos (2 ^ (- e)))) in
      Fin (if negative then (- v)%Qc else v)
  end.

Module Number.

(** [x < y] *)
Definition lt (x y : number) : bool :=
  match x, y with
  | NaN, _ | _, NaN => false
  | Fin a, Fin b => Qc_ltb a b
  | NegInf, NegInf => false
  | NegInf, _ => true
  | _, NegInf => false
  | PosInf, _ => false
  | Fin _, PosInf => true
  end.

(** [x <= y] *)
Definition le (x y : number) : bool :=
  match x, y with
  | NaN, _ | _, NaN => false
  | Fin a, Fin b => Qc_leb a b
  | NegInf, _ => true
  | _, PosInf => true
  | PosInf, _ => false
  | Fin _, NegInf => false
  end.

(** [Number.isFinite(x)] *)
Definition isFinite (x : number) : bool :=
  match x with Fin _ => true | _ => false end.

(** [Number.isInteger(x)] *)
Definition isInteger (x : number) : bool :=
  match x with Fin q => bool_decide (is_Some (as_integer q)) | _ => false end.

(** Truthiness of a number: [0] and [NaN] are falsy. *)
Definition truthy (x : number) : bool :=
  match x with
  | Fin q => negb (Qc_eqb q 0)
  | NaN => false
  | _ => true
  end.

(** [-x] *)
Definition neg (x : number) : number :=
  match x with
  | Fin q => Fin (- q)
  | NaN => NaN
  | PosInf => NegInf
  | NegInf => PosInf
  end.

(** [x === y] *)
Definition eqb (x y : number) : bool :=
  match x, y with
  | Fin a, Fin b => Qc_eqb a b
  | PosInf, PosInf | NegInf, NegInf => true
  | _, _ => false
  end.

(** [x + y] *)
Definition add (x y : number) : number :=
  match x, y with
  | NaN, _ | _, NaN => NaN
  | Fin a, Fin b => binary64 (a + b)
  | PosInf, NegInf | NegInf, PosInf => NaN
  | PosInf, _ | _, PosInf => PosInf
  | NegInf, _ | _, NegInf => NegInf
  end.

(** [x - y] *)
Definition sub (x y : number) : number := add x (neg y).

(** [x * y] *)
Definition mul (x y : number) : number :=
  match x, y with
  | NaN, _ | _, NaN => NaN
  | Fin a, Fin b => binary64 (a * b)
  | Fin a, PosInf | PosInf, Fin a =>
      if Qc_eqb a 0 then NaN else if Qc_ltb a 0 then NegInf else PosInf
  | Fin a, NegInf | NegInf, Fin a =>
      if Qc_eqb a 0 then NaN else if Qc_ltb a 0 then PosInf else NegInf
  | PosInf, PosInf | NegInf, NegInf => PosInf
  | PosInf, NegInf | NegInf, PosInf => NegInf
  end.

(** [Math.ceil(x)] *)
Definition ceil (x : number) : number :=
  match x with
  | Fin q => Fin (of_Z (Qceiling q))
  | other => other
  end.

(** [Math.min(x, y)] *)
Definition min (x y : number) : number :=
  match x, y with
  | NaN, _ | _, NaN => NaN
  | _, _ => if lt y x then y else x
  end.

End Number.

(** ** JavaScript strings *)

(** White space and line terminators, as [String.prototype.trim] and the
    regular-expression class [\s] see them (code units up to 255). *)
Definition is_whitespace (c : ascii) : bool :=
  let n := N_of_ascii c in
  ((9 <=? n) && (n <=? 13) || (n =? 32) || (n =? 160))%N.

(** The regular-expression class [\d]. *)
Definition is_digit (c : ascii) : bool :=
  let n := N_of_ascii c in ((48 <=? n) && (n <=? 57))%N.

Fixpoint trimStart (s : string) : string :=
  match s with
  | String c rest => if is_whitespace c then trimStart rest else s
  | EmptyString => EmptyString
  end.

Definition trimEnd (s : string) : string :=
  String.rev (trimStart (String.rev s)).

(** [s.trim()] *)
Definition trim (s : string) : string := trimEnd (trimStart s).

(** [s.startsWith(p)] *)
Fixpoint startsWith (p s : string) : bool :=
  match p, s with
  | EmptyString, _ => true
  | String a p', String b s' => Ascii.eqb a b && startsWith p' s'
  | String _ _, EmptyString => false
  end.

(** [s.includes(p)] *)
Fixpoint includes (s p : string) : bool :=
  startsWith p s ||
  match s with
  | String _ rest => includes rest p
  | EmptyString => false
  end.

(** The part of [s] after its first [n] characters. *)
Fixpoint string_drop (n : nat) (s : string) : string :=
  match n, s with
  | O, _ => s
  | S n', String _ rest => string_drop n' rest
  | S _, EmptyString => EmptyString
  end.

(** The longest prefix of [s] whose characters satisfy [p], and the rest. *)
Fixpoint span (p : ascii -> bool) (s : string) : string * string :=
  match s with
  | String c rest =>
      if p c then let '(a, b) := span p rest in (String c a, b)
      else (EmptyString, s)
  | EmptyString => (EmptyString, EmptyString)
  end.

(** ** Decimal numerals *)

(** The decimal numeral of a natural number, as [String(n)] writes it. *)
Definition decimal (n : N) : string := NilZero.string_of_uint (N.to_uint n).

(** The decimal numeral of an integer. *)
Definition decimal_Z (z : Z) : string :=
  if z <? 0 then String "-" (decimal (Z.abs_N z)) else decimal (Z.abs_N z).

(** The value of a string of decimal digits ([0] for the empty string). *)
Definition digits_value (s : string) : N :=
  match NilEmpty.uint_of_string s with
  | Some d => N.of_uint d
  | None => 0%N
  end.

Definition string_take (n : nat) (s : string) : string := String.substring 0 n s.

Definition is_empty (s : string) : bool :=
  match s with EmptyString => true | String _ _ => false end.

(** ** Numbers inside the Lua scripts

    Redis runs Lua 5.1, where numbers are doubles and the concatenation
    operator [..] writes a number with the C format ["%.14g"]
    ([LUAI_NUMFFORMAT]): at most 14 significant digits, trailing zeros
    dropped, and exponent notation when the decimal exponent is below
    [-4] or at least [14]. *)

Definition is_zero_char (c : ascii) : bool := Ascii.eqb c "0".

Fixpoint strip_trailing_zeros (s : string) : string :=
  match s with
  | EmptyString => EmptyString
  | String c rest =>
      let rest' := strip_trailing_zeros rest in
      if is_empty rest' && is_zero_char c then EmptyString else String c rest'
  end.

Fixpoint zeros (n : nat) : string :=
  match n with O => "" | S n' => String "0" (zeros n') end.

(** The number of decimal digits of a positive integer. *)
Definition ndigits (n : Z) : Z := Z.of_nat (String.length (decimal (Z.to_N n))).

(** [floor (log10 (n / d))] for positive [n] and [d]. *)
Definition log10_floor (n d : Z) : Z :=
  let x0 := ndigits n - ndigits d in
  let reached := if 0 <=? x0 then d * 10 ^ x0 <=? n else d <=? n * 10 ^ (- x0) in
  if reached then x0 else x0 - 1.

(** The exponent of ["%e"]: a sign and at least two digits. *)
Definition exponent_text (x : Z) : string :=
  (if x <? 0 then "-" else "+") ++
  (if Z.abs x <? 10 then "0" else "") ++ decimal (Z.abs_N x).

(** ["%.14g"] on a rational, computed digit by digit. *)
Definition format_g14 (q : Qc) : string :=
  let n := Z.abs (Qnum q) in
  let d := Zpos (Qden q) in
  if n =? 0 then "0" else
  let x := log10_floor n d in
  let e := 13 - x in
  let m := if 0 <=? e then round_half_even (n * 10 ^ e) d
           else round_half_even n (d * 10 ^ (- e)) in
  let '(m, x) := if m =? 10 ^ 14 then (10 ^ 13, x + 1) else (m, x) in
  let ds := decimal (Z.to_N m) in
  let point f := if is_empty f then "" else "." ++ f in
  let body :=
    if (x <? -4) || (14 <=? x) then
      string_take 1 ds ++ point (strip_trailing_zeros (string_drop 1 ds)) ++
      "e" ++ exponent_text x
    else if 0 <=? x then
      string_take (Z.to_nat (x + 1)) ds ++
      point (strip_trailing_zeros (string_drop (Z.to_nat (x + 1)) ds))
    else
      "0." ++ zeros (Z.to_nat (- x - 1)) ++ strip_trailing_zeros ds in
  (if Qnum q <? 0 then "-" else "") ++ body.

(** [lua_number2str]: what [..] appends for a number. *)
Definition lua_number2str (q : Qc) : string := format_g14 q.

(** ** [parseFloat] *)

(** [10^e] for an integer exponent. *)
Definition Qc_pow10 (e : Z) : Qc :=
  if 0 <=? e then of_Z (10 ^ e) else (/ of_Z (10 ^ (- e)))%Qc.

(** The value of the digit strings [ip "." fp]. *)
Definition decimal_value (ip fp : string) : Qc :=
  (of_Z (Z.of_N (digits_value ip)) +
   of_Z (Z.of_N (digits_value fp)) * Qc_pow10 (- Z.of_nat (String.length fp)))%Qc.

(** An exponent part [e[+-]?\d+] at the start of [s], if there is one. *)
Definition exponent_part (s : string) : Z :=
  match s with
  | String c r =>
      if Ascii.eqb c "e" || Ascii.eqb c "E" then
        let '(negative, r) :=
          match r with
          | String "-" r' => (true, r')
          | String "+" r' => (false, r')
          | _ => (false, r)
          end in
        let '(ds, _) := span is_digit r in
        if is_empty ds then 0
        else if (negative : bool) then - Z.of_N (digits_value ds)
        else Z.of_N (digits_value ds)
      else 0
  | EmptyString => 0
  end.

(** A decimal literal without its sign at the start of [s]: the longest
    prefix that reads as one, [NaN] when there is none. *)
Definition parse_literal (negative : bool) (s : string) : number :=
  if startsWith "Infinity" s then (if negative then NegInf else PosInf)
  else
    let '(ip, r) := span is_digit s in
    let '(fp, r) :=
      match r with
      | String "." r' => span is_digit r'
      | _ => ("", r)
      end in
    if is_empty ip && is_empty fp then NaN
    else
      let v := (decimal_value ip fp * Qc_pow10 (exponent_part r))%Qc in
      Fin (if negative then (- v)%Qc else v).

(** [parseFloat(s)] *)
Definition parseFloat (s : string) : number :=
  match trimStart s with
  | String "-" r => parse_literal true r
  | String "+" r => parse_literal false r
  | r => parse_literal false r
  end.

(** ** The pattern [/INSUFFICIENT_CREDITS:?\s*(\d+(?:\.\d+)?)/] *)

Definition INSUFFICIENT_CREDITS : string := "INSUFFICIENT_CREDITS".

(** The group [(\d+(?:\.\d+)?)] at the start of [s]. *)
Definition match_amount (s : string) : option string :=
  let '(ip, r) := span is_digit s in
  if is_empty ip then None
  else
    match r with
    | String "." r' =>
        let '(fp, _) := span is_digit r' in
        if is_empty fp then Some ip else Some (ip ++ "." ++ fp)
    | _ => Some ip
    end.

(** The pattern anchored at the start of [s].  The three classes [:],
    [\s] and [\d] are disjoint, so giving back a colon or a blank that was
    consumed can never let [\d+] succeed: taking the colon when it is
    there and every blank after it is the only way to match. *)
Definition match_here (s : string) : option string :=
  if startsWith INSUFFICIENT_CREDITS s then
    let r := string_drop (String.length INSUFFICIENT_CREDITS) s in
    let r := match r with String ":" r' => r' | _ => r end in
    match_amount (trimStart r)
  else None.

(** [message.match(pattern)?.[1]]: the capture of the leftmost match. *)
Fixpoint match_available (message : string) : option string :=
  match match_here message with
  | Some c => Some c
  | None =>
      match message with
      | String _ rest => match_available rest
      | EmptyString => None
      end
  end.

(** ** [String(x)] for a number

    The shortest decimal numeral that reads back as the same double
    (ECMAScript, Number::toString): [k] digits [s] with the decimal point
    after the [n]-th, written plainly when [-6 < n <= 21] and with an
    exponent otherwise. *)

(** [|q|] to [k] significant digits: the digits and the position of the
    point. *)
Definition significant (k : Z) (q : Qc) : Z * Z :=
  let n := Z.abs (Qnum q) in
  let d := Zpos (Qden q) in
  let x := log10_floor n d in
  let e := k - 1 - x in
  let m := if 0 <=? e then round_half_even (n * 10 ^ e) d
           else round_half_even n (d * 10 ^ (- e)) in
  if m =? 10 ^ k then (10 ^ (k - 1), x + 2) else (m, x + 1).

(** The number that [k] digits [s] with the point after the [n]-th
    denote. *)
Definition digits_denote (k : Z) (sn : Z * Z) : Qc :=
  (of_Z sn.1 * Qc_pow10 (sn.2 - k))%Qc.

(** The least [k] from the given one on, at most 17, whose digits read
    back as [|q|]. *)
Fixpoint shortest_digits (fuel : nat) (k : Z) (q : Qc) : Z * (Z * Z) :=
  let sn := significant k q in
  match fuel with
  | O => (k, sn)
  | S fuel' =>
      match binary64 (digits_denote k sn) with
      | Fin v =>
          if Qc_eqb v (if Qnum q <? 0 then - q else q)%Qc then (k, sn)
          else shortest_digits fuel' (k + 1) q
      | _ => shortest_digits fuel' (k + 1) q
      end
  end.

(** [String(x)] *)
Definition number_toString (x : number) : string :=
  match x with
  | Fin q =>
      if Qc_eqb q 0 then "0" else
      let '(k, (s, n)) := shortest_digits 16 1 q in
      let ds := decimal (Z.to_N s) in
      let body :=
        if (k <=? n) && (n <=? 21) then ds ++ zeros (Z.to_nat (n - k))
        else if (0 <? n) && (n <=? 21) then
          string_take (Z.to_nat n) ds ++ "." ++ string_drop (Z.to_nat n) ds
        else if (-6 <? n) && (n <=? 0) then "0." ++ zeros (Z.to_nat (- n)) ++ ds
        else
          let e := n - 1 in
          (if k =? 1 then ds else string_take 1 ds ++ "." ++ string_drop 1 ds) ++
          "e" ++ (if e <? 0 then "-" else "+") ++ decimal (Z.abs_N e) in
      (if Qnum q <? 0 then "-" else "") ++ body
  | NaN => "NaN"
  | PosInf => "Infinity"
  | NegInf => "-Infinity"
  end.

(** ** Errors (src/errors.ts) *)

Inductive error : Type :=
| InsufficientCreditsError (required available : number)
| TransactionError (message : string) (txId : option string)
| BalanceVerificationError (message userId : string) (cached calculated : number)
| PricingConfigError (message : string) (action : option string)
| UpstashError (message : string)
| TypeError (message : string)
| OutsideModel.

(** [UpstashError] and [TypeError] are not classes of src/errors.ts: the
    first is what the Redis client raises, the second what the engine
    raises when a value that is no function is called.  [OutsideModel]
    is no error of the program; it marks a call that has left what the
    model represents. *)

(** An exception raised below the SDK: by the Redis client or by
    [JSON.parse]. *)
Record exception : Type := { name : string; message : string }.

(** [String(error)] *)
Definition exception_toString (e : exception) : string :=
  name e ++ ": " ++ message e.

Inductive result (A : Type) : Type :=
| Ok (a : A)
| Throw (e : error).
Arguments Ok {A} a.
Arguments Throw {A} e.

(** ** Interfaces (src/types.ts) *)

Inductive scalar : Type :=
| SNumber (q : Qc)
| SString (s : string)
| SBool (b : bool).

#[global] Instance scalar_eq_dec : EqDecision scalar.
Proof. solve_decision. Defined.

(** [Record<string, any>]: an ordered string-keyed map of scalars. *)
Definition Metadata : Type := list (string * scalar).

Module Transaction.
Record t : Type := mk {
  id : string;
  amount : Qc;
  action : string;
  metadata : option Metadata;
  timestamp : Z
}.
End Transaction.

#[global] Instance Transaction_eq_dec : EqDecision Transaction.t.
Proof. solve_decision. Defined.

Module TransactionResult.
Record t : Type := mk {
  txId : string;
  balance : number;
  timestamp : Z
}.
End TransactionResult.

Module TransactionQueryOptions.
Record t : Type := mk {
  limit : option number;
  startTime : option Z;
  endTime : option Z
}.
End TransactionQueryOptions.

Module BalanceVerification.
Record t : Type := mk {
  valid : bool;
  cached : number;
  calculated : number;
  difference : number
}.
End BalanceVerification.

Module PricingConfig.
Record t : Type := mk {
  rate : number;
  unit : string;
  calculate : number -> number
}.
End PricingConfig.

(** ** The Redis store *)

(** A member of a sorted set is a text.  The SDK only ever writes
    [JSON.stringify(transaction)]; that text is represented by the
    transaction it parses back to, and a text that is not JSON by
    [Garbage]. *)
Inductive member : Type :=
| Json (tx : Transaction.t)
| Garbage (raw : string).

#[global] Instance member_eq_dec : EqDecision member.
Proof. solve_decision. Defined.

Definition JSON_stringify (tx : Transaction.t) : member := Json tx.

(** [JSON.parse(text) as Transaction]; the wording of the [SyntaxError]
    depends on the engine. *)
Definition JSON_parse (m : member) : Transaction.t + exception :=
  match m with
  | Json tx => inl tx
  | Garbage raw =>
      inr {| name := "SyntaxError"; message := raw ++ " is not valid JSON" |}
  end.

(** What the client hands over for a member: it parses every text the
    store returns and falls back to the text itself when that fails, so
    a serialised transaction arrives as an object. *)
Inductive deserialised : Type :=
| Object (tx : Transaction.t)
| Text (raw : string).

Definition deserialise (m : member) : deserialised :=
  match m with
  | Json tx => Object tx
  | Garbage raw => Text raw
  end.

(** [String(value)], which [JSON.parse] applies to an argument that is
    not a string; neither text is JSON. *)
Definition String_of (value : deserialised) : member :=
  match value with
  | Object _ => Garbage "[object Object]"
  | Text raw => Garbage raw
  end.

(** Redis orders the members of a sorted set by score and, among equal
    scores, by their bytes.  A serialised transaction starts with its id,
    which decides the order of two transactions with different ids. *)
Definition member_bytes (m : member) : string :=
  match m with
  | Json tx => Transaction.id tx
  | Garbage raw => raw
  end.

(** An entry of a sorted set: a score and a member. *)
Abbreviation entry := (Z * member)%type.

Definition entry_leb (a b : entry) : bool :=
  (a.1 <? b.1) || ((a.1 =? b.1) && String.leb (member_bytes a.2) (member_bytes b.2)).

Fixpoint zinsert (e : entry) (zs : list entry) : list entry :=
  match zs with
  | [] => [e]
  | x :: rest => if entry_leb e x then e :: zs else x :: zinsert e rest
  end.

(** A sorted set holds a member once: adding it again moves it. *)
Definition zadd (score : Z) (m : member) (zs : list entry) : list entry :=
  zinsert (score, m) (filter (fun e => e.2 <> m) zs).

Record store : Type := {
  scalars : gmap string Qc;
  sorted_sets : gmap string (list entry);
  requests : nat
}.

Definition empty_store : store :=
  {| scalars := ∅; sorted_sets := ∅; requests := 0 |}.

(** The members of the sorted set at [key], lowest score first; a missing
    key is an empty set. *)
Definition zset (key : string) (s : store) : list entry :=
  default [] (sorted_sets s !! key).

Module Redis.

Definition GET (key : string) (s : store) : option Qc := scalars s !! key.

Definition SET (key : string) (v : Qc) (s : store) : store :=
  {| scalars := <[key := v]> (scalars s);
     sorted_sets := sorted_sets s;
     requests := requests s |}.

Definition ZADD (key : string) (score : Z) (m : member) (s : store) : store :=
  {| scalars := scalars s;
     sorted_sets := <[key := zadd score m (zset key s)]> (sorted_sets s);
     requests := requests s |}.

(** [ZRANGE key start stop [REV]]: a range of ranks.  Negative ranks
    count from the end; with [REV] rank 0 is the highest score. *)
Definition ZRANGE (key : string) (start stop : Z) (rev : bool) (s : store)
  : list member :=
  let zs := if rev then reverse (zset key s) else zset key s in
  let len := Z.of_nat (length zs) in
  let start := if start <? 0 then Z.max 0 (len + start) else start in
  let stop := if stop <? 0 then len + stop else Z.min stop (len - 1) in
  if (stop <? start) || (len <=? start) then []
  else snd <$> take (Z.to_nat (stop - start + 1)) (drop (Z.to_nat start) zs).

(** [ZRANGE key start stop BYSCORE [REV] [LIMIT offset count]]: the
    members whose score lies between the bounds.  With [REV] the answer
    runs from the highest score down, and the first bound is the highest
    score to consider, the second the lowest: nothing is returned unless
    [start >= stop].  A negative count returns everything from the offset
    on. *)
Definition ZRANGE_BYSCORE (key : string) (start stop : Z) (rev : bool)
    (lim : option (nat * Z)) (s : store) : list member :=
  let hits :=
    if rev then
      filter (fun e : entry => stop <= e.1 /\ e.1 <= start) (reverse (zset key s))
    else
      filter (fun e : entry => start <= e.1 /\ e.1 <= stop) (zset key s) in
  snd <$>
    match lim with
    | None => hits
    | Some (offset, count) =>
        if count <? 0 then drop offset hits
        else take (Z.to_nat count) (drop offset hits)
    end.

End Redis.

(** ** The Redis client ([@upstash/redis]) *)

(** What a script hands back: a value, or [redis.error_reply(text)];
    [OutsideReply] when the script would write or return a number the
    model does not represent. *)
Inductive reply (A : Type) : Type :=
| Reply (a : A)
| ErrorReply (text : string)
| OutsideReply.
Arguments Reply {A} a.
Arguments ErrorReply {A} text.
Arguments OutsideReply {A}.

(** How the text of an error reply shows up in [error.message]; the
    shapes are the ones the catch block of [deduct] lists. *)
Inductive error_format : Type :=
| Bare
| WithCode
| CommandFailed.

Definition error_message (fmt : error_format) (text : string) : string :=
  match fmt with
  | Bare => text
  | WithCode => "ERR " ++ text
  | CommandFailed => "Command failed: ERR " ++ text
  end.

(** The outcome of a call of the client: it returns or raises. *)
Inductive response (A : Type) : Type :=
| Returned (a : A)
| Raised (ex : exception)
| Outside.
Arguments Returned {A} a.
Arguments Raised {A} ex.
Arguments Outside {A}.

(** A call of the client. *)
Definition IO (A : Type) : Type := store -> response A * store.

(** One more request has reached the store. *)
Definition sent (s : store) : store :=
  {| scalars := scalars s; sorted_sets := sorted_sets s; requests := S (requests s) |}.

Module ZRangeOptions.
Record t : Type := mk {
  byScore : bool;
  rev : bool;
  offset : option nat;
  count : option number
}.
Definition none : t := mk false false None None.
End ZRangeOptions.

Module Upstash.

Definition UpstashError (text : string) : exception :=
  {| name := "UpstashError"; message := text |}.

(** [redis.eval(script, keys, args)]: the script runs atomically. *)
Definition eval {A : Type} (fmt : error_format) (script : store -> reply A * store)
  : IO A :=
  fun s =>
    let '(r, s') := script (sent s) in
    match r with
    | Reply a => (Returned a, s')
    | ErrorReply text => (Raised (UpstashError (error_message fmt text)), s')
    | OutsideReply => (Outside, s')
    end.

(** [redis.get<number>(key)] *)
Definition get (key : string) : IO (option Qc) :=
  fun s => (Returned (Redis.GET key (sent s)), sent s).

(** [redis.set(key, value)]: the value is sent as [JSON.stringify]
    writes it, which for a number that is not finite is [null]. *)
Definition set (key : string) (value : number) : IO unit :=
  fun s =>
    match value with
    | Fin q => (Returned tt, Redis.SET key q (sent s))
    | _ => (Outside, sent s)
    end.

(** [redis.zrange(key, min, max, opts)].  [LIMIT] is sent when both
    [offset] and [count] are given, and the server wants an integer
    count.  The members come back deserialised. *)
Definition zrange (key : string) (min max : Z) (opts : ZRangeOptions.t)
  : IO (list deserialised) :=
  fun s =>
    let s' := sent s in
    let byScore := ZRangeOptions.byScore opts in
    let rev := ZRangeOptions.rev opts in
    match ZRangeOptions.offset opts, ZRangeOptions.count opts with
    | Some offset, Some count =>
        match count with
        | Fin q =>
            match as_integer q with
            | Some c =>
                if byScore then
                  (Returned
                     (deserialise <$>
                        Redis.ZRANGE_BYSCORE key min max rev (Some (offset, c)) s'), s')
                else
                  (Raised (UpstashError "ERR syntax error, LIMIT is only supported in combination with either BYSCORE or BYLEX"), s')
            | None => (Raised (UpstashError "ERR value is not an integer or out of range"), s')
            end
        | _ => (Raised (UpstashError "ERR value is not an integer or out of range"), s')
        end
    | _, _ =>
        if byScore then
          (Returned (deserialise <$> Redis.ZRANGE_BYSCORE key min max rev None s'), s')
        else (Returned (deserialise <$> Redis.ZRANGE key min max rev s'), s')
    end.

End Upstash.

(** ** The SDK's own effects: a store and typed errors *)

Definition M (A : Type) : Type := store -> result A * store.

Definition ret {A : Type} (a : A) : M A := fun s => (Ok a, s).

Definition throw {A : Type} (e : error) : M A := fun s => (Throw e, s).

Definition bind {A B : Type} (m : M A) (k : A -> M B) : M B :=
  fun s =>
    match m s with
    | (Ok a, s') => k a s'
    | (Throw e, s') => (Throw e, s')
    end.

Notation "'let*' x ':=' m 'in' k" := (bind m (fun x => k))
  (at level 10, x pattern, m at level 100, k at level 200).

(** [try { await call } catch (error) { throw handler(error) }] *)
Definition try_catch {A : Type} (call : IO A) (handler : exception -> error) : M A :=
  fun s =>
    match call s with
    | (Returned a, s') => (Ok a, s')
    | (Raised ex, s') => (Throw (handler ex), s')
    | (Outside, s') => (Throw OutsideModel, s')
    end.

(** [await call] outside any [try]: the client's exception goes through. *)
Definition await {A : Type} (call : IO A) : M A :=
  try_catch call (fun ex => UpstashError (message ex)).

(** [results.map(f)] where [f] may throw. *)
Fixpoint map_throwing {A B : Type} (f : A -> result B) (l : list A) : result (list B) :=
  match l with
  | [] => Ok []
  | x :: rest =>
      match f x with
      | Throw e => Throw e
      | Ok y =>
          match map_throwing f rest with
          | Throw e => Throw e
          | Ok ys => Ok (y :: ys)
          end
      end
  end.

(** [results.reduce(f, init)] where [f] may throw. *)
Fixpoint reduce_throwing {A B : Type} (f : B -> A -> result B) (l : list A) (acc : B)
  : result B :=
  match l with
  | [] => Ok acc
  | x :: rest =>
      match f acc x with
      | Throw e => Throw e
      | Ok acc' => reduce_throwing f rest acc'
      end
  end.

Definition lift {A : Type} (r : result A) : M A := fun s => (r, s).

(** ** The Lua scripts embedded in src/client.ts *)

Module Lua.

(** How Redis turns a Lua number of a reply into an integer: a C cast
    to [long long], which drops the fraction and is defined for the
    values whose integer part fits 64 bits. *)
Definition integer_reply (x : number) : option Z :=
  match x with
  | Fin q =>
      let z := truncate q in
      if (- 2 ^ 63 <=? z) && (z <? 2 ^ 63) then Some z else None
  | _ => None
  end.

(** The script of [initializeUser]; the reply is
    [{balance, already_exists}]. *)
Definition initializeUser (balance_key txs_key : string) (starting_credits : Qc)
    (tx_data : member) (timestamp : Z) (s : store) : reply (Z * Z) * store :=
  match Redis.GET balance_key s with
  | Some existing_balance =>
      match integer_reply (Fin existing_balance) with
      | Some r => (Reply (r, 1), s)
      | None => (OutsideReply, s)
      end
  | None =>
      match integer_reply (Fin starting_credits) with
      | Some r =>
          let s := Redis.SET balance_key starting_credits s in
          let s := Redis.ZADD txs_key timestamp tx_data s in
          (Reply (r, 0), s)
      | None => (OutsideReply, s)
      end
  end.

(** The script of [deduct]. *)
Definition deduct (balance_key txs_key : string) (amount : Qc)
    (tx_data : member) (timestamp : Z) (s : store) : reply Z * store :=
  let balance := default 0%Qc (Redis.GET balance_key s) in
  if Qc_ltb balance amount then
    (ErrorReply (INSUFFICIENT_CREDITS ++ ":" ++ lua_number2str balance), s)
  else
    match binary64 (balance - amount) with
    | Fin new_balance =>
        match integer_reply (Fin new_balance) with
        | Some r =>
            let s := Redis.SET balance_key new_balance s in
            let s := Redis.ZADD txs_key timestamp tx_data s in
            (Reply r, s)
        | None => (OutsideReply, s)
        end
    | _ => (OutsideReply, s)
    end.

(** The script of [add]. *)
Definition add (balance_key txs_key : string) (amount : Qc)
    (tx_data : member) (timestamp : Z) (s : store) : reply Z * store :=
  let balance := default 0%Qc (Redis.GET balance_key s) in
  match binary64 (balance + amount) with
  | Fin new_balance =>
      match integer_reply (Fin new_balance) with
      | Some r =>
          let s := Redis.SET balance_key new_balance s in
          let s := Redis.ZADD txs_key timestamp tx_data s in
          (Reply r, s)
      | None => (OutsideReply, s)
      end
  | _ => (OutsideReply, s)
  end.

End Lua.

(** ** The ledger client (src/client.ts) *)

(** What one call reads from the clock and the random generator. *)
Record Env : Type := {
  id_now : Z;          (** [Date.now()] inside [generateTxId] *)
  id_random : string;  (** [Math.random().toString(36).substring(2, 11)] *)
  now : Z;             (** [Date.now()] for the timestamp or the default bound *)
  later : Z            (** [Date.now()] after the store has answered *)
}.

Module CreditsConfig.
Record t : Type := mk {
  url : string;
  token : string;
  defaultCredits : option number
}.
End CreditsConfig.

Module CreditsSDK.

Record t : Type := mk {
  redis : error_format;
  defaultCredits : number
}.

(** The constructor; [server] is how the store behind [url] words its
    errors.  [config.options?.defaultCredits || 100]. *)
Definition new (config : CreditsConfig.t) (server : error_format) : t :=
  {| redis := server;
     defaultCredits :=
       match CreditsConfig.defaultCredits config with
       | Some d => if Number.truthy d then d else Fin (of_Z 100)
       | None => Fin (of_Z 100)
       end |}.

Definition newline : string := String (ascii_of_nat 10) "".
Definition carriage_return : string := String (ascii_of_nat 13) "".

Definition validateUserId (userId : string) : M unit :=
  if is_empty userId then
    throw (TransactionError "userId is required and must be a string" None)
  else
    let trimmedUserId := trim userId in
    if (String.length trimmedUserId =? 0)%nat then
      throw (TransactionError "userId cannot be empty or whitespace" None)
    else if (256 <? String.length trimmedUserId)%nat then
      throw (TransactionError "userId cannot exceed 256 characters" None)
    else if includes trimmedUserId newline || includes trimmedUserId carriage_return then
      throw (TransactionError "userId cannot contain newline characters" None)
    else ret tt.

Definition getBalanceKey (userId : string) : string := "balance:" ++ userId.

Definition getTransactionsKey (userId : string) : string := "txs:" ++ userId.

Definition generateTxId (env : Env) : string :=
  "tx_" ++ decimal_Z (id_now env) ++ "_" ++ id_random env.

(** [!action || typeof action !== 'string' || action.trim().length === 0] *)
Definition blank (action : string) : bool :=
  is_empty action || (String.length (trim action) =? 0)%nat.

Definition initializeUser (sdk : t) (env : Env) (userId : string)
    (credits : option number) : M TransactionResult.t :=
  let* _ := validateUserId userId in
  let startingCredits := default (defaultCredits sdk) credits in
  if Number.lt startingCredits (Fin 0) then
    throw (TransactionError "Starting credits must be non-negative" None)
  else
    match startingCredits with
    | Fin starting =>
        let balanceKey := getBalanceKey userId in
        let txsKey := getTransactionsKey userId in
        let txId := generateTxId env in
        let timestamp := now env in
        let transaction :=
          {| Transaction.id := txId;
             Transaction.amount := starting;
             Transaction.action := "user_initialized";
             Transaction.metadata := Some [("starting_credits", SNumber starting)];
             Transaction.timestamp := timestamp |} in
        let* result :=
          try_catch
            (Upstash.eval (redis sdk)
               (Lua.initializeUser balanceKey txsKey starting
                  (JSON_stringify transaction) timestamp))
            (fun error =>
               TransactionError
                 ("User initialization failed: " ++ exception_toString error)
                 (Some txId)) in
        let '(balance, alreadyExists) := result in
        if negb (alreadyExists =? 0) then
          ret {| TransactionResult.txId := "already_initialized";
                 TransactionResult.balance := Fin (of_Z balance);
                 TransactionResult.timestamp := later env |}
        else
          ret {| TransactionResult.txId := txId;
                 TransactionResult.balance := Fin (of_Z balance);
                 TransactionResult.timestamp := timestamp |}
    | _ => throw (TransactionError "Starting credits must be a finite number" None)
    end.

(** The catch block of [deduct]. *)
Definition deduct_catch (amount : number) (txId : string) (err : exception) : error :=
  if includes (message err) INSUFFICIENT_CREDITS then
    let availableBalance := parseFloat (default "0" (match_available (message err))) in
    InsufficientCreditsError amount availableBalance
  else
    TransactionError ("Deduction failed: " ++ exception_toString err) (Some txId).

Definition deduct (sdk : t) (env : Env) (userId : string) (amount : number)
    (action : string) (metadata : option Metadata) : M TransactionResult.t :=
  let* _ := validateUserId userId in
  if Number.le amount (Fin 0) then
    throw (TransactionError "Deduct amount must be positive and non-zero" None)
  else
    match amount with
    | Fin amt =>
        if blank action then
          throw (TransactionError "action is required and must be a non-empty string" None)
        else
          let balanceKey := getBalanceKey userId in
          let txsKey := getTransactionsKey userId in
          let txId := generateTxId env in
          let timestamp := now env in
          let transaction :=
            {| Transaction.id := txId;
               Transaction.amount := (- amt)%Qc;
               Transaction.action := action;
               Transaction.metadata := metadata;
               Transaction.timestamp := timestamp |} in
          let* newBalance :=
            try_catch
              (Upstash.eval (redis sdk)
                 (Lua.deduct balanceKey txsKey amt (JSON_stringify transaction) timestamp))
              (deduct_catch amount txId) in
          ret {| TransactionResult.txId := txId;
                 TransactionResult.balance := Fin (of_Z newBalance);
                 TransactionResult.timestamp := timestamp |}
    | _ => throw (TransactionError "Deduct amount must be a finite number" None)
    end.

Definition add (sdk : t) (env : Env) (userId : string) (amount : number)
    (action : string) (metadata : option Metadata) : M TransactionResult.t :=
  let* _ := validateUserId userId in
  if Number.le amount (Fin 0) then
    throw (TransactionError "Add amount must be positive and non-zero" None)
  else
    match amount with
    | Fin amt =>
        if blank action then
          throw (TransactionError "action is required and must be a non-empty string" None)
        else
          let balanceKey := getBalanceKey userId in
          let txsKey := getTransactionsKey userId in
          let txId := generateTxId env in
          let timestamp := now env in
          let transaction :=
            {| Transaction.id := txId;
               Transaction.amount := amt;
               Transaction.action := action;
               Transaction.metadata := metadata;
               Transaction.timestamp := timestamp |} in
          let* newBalance :=
            try_catch
              (Upstash.eval (redis sdk)
                 (Lua.add balanceKey txsKey amt (JSON_stringify transaction) timestamp))
              (fun error =>
                 TransactionError ("Addition failed: " ++ exception_toString error)
                   (Some txId)) in
          ret {| TransactionResult.txId := txId;
                 TransactionResult.balance := Fin (of_Z newBalance);
                 TransactionResult.timestamp := timestamp |}
    | _ => throw (TransactionError "Add amount must be a finite number" None)
    end.

Definition getBalance (sdk : t) (userId : string) : M number :=
  let* _ := validateUserId userId in
  let balanceKey := getBalanceKey userId in
  let* balance := await (Upstash.get balanceKey) in
  ret (Fin (default 0%Qc balance)).

Definition getTransactions (sdk : t) (env : Env) (userId : string)
    (options : TransactionQueryOptions.t) : M (list Transaction.t) :=
  let* _ := validateUserId userId in
  let txsKey := getTransactionsKey userId in
  let limit := default (Fin (of_Z 50)) (TransactionQueryOptions.limit options) in
  let min := default 0 (TransactionQueryOptions.startTime options) in
  let max := default (now env) (TransactionQueryOptions.endTime options) in
  let* results :=
    await (Upstash.zrange txsKey min max
             {| ZRangeOptions.byScore := true;
                ZRangeOptions.rev := true;
                ZRangeOptions.offset := Some 0%nat;
                ZRangeOptions.count := Some limit |}) in
  lift (map_throwing
          (fun txStr =>
             match JSON_parse (String_of txStr) with
             | inl tx => Ok tx
             | inr error =>
                 Throw (TransactionError
                          ("Failed to parse transaction data: " ++ exception_toString error)
                          None)
             end)
          results).

(** [JSON.parse(txStr)] is applied to whatever the client handed over. *)
Definition calculateBalanceFromTransactions (sdk : t) (userId : string) : M number :=
  let txsKey := getTransactionsKey userId in
  let* results := await (Upstash.zrange txsKey 0 (-1) ZRangeOptions.none) in
  lift (reduce_throwing
          (fun sum txStr =>
             match JSON_parse (String_of txStr) with
             | inl tx => Ok (Number.add sum (Fin (Transaction.amount tx)))
             | inr error =>
                 Throw (BalanceVerificationError
                          ("Failed to parse transaction data during balance calculation: "
                             ++ exception_toString error)
                          userId (Fin 0) (Fin 0))
             end)
          results (Fin 0)).

(** [verifyBalance], given the method that sums the log. *)
Definition verifyBalance_with (calculate : string -> M number) (userId : string)
  : M BalanceVerification.t :=
  let* _ := validateUserId userId in
  let balanceKey := getBalanceKey userId in
  let* cached := await (Upstash.get balanceKey) in
  let cachedBalance := Fin (default 0%Qc cached) in
  let* calculatedBalance := calculate userId in
  let difference := Number.sub cachedBalance calculatedBalance in
  let valid := Number.eqb difference (Fin 0) in
  ret {| BalanceVerification.valid := valid;
         BalanceVerification.cached := cachedBalance;
         BalanceVerification.calculated := calculatedBalance;
         BalanceVerification.difference := difference |}.

Definition verifyBalance (sdk : t) (userId : string) : M BalanceVerification.t :=
  verifyBalance_with (calculateBalanceFromTransactions sdk) userId.

(** [rebuildBalance], given the method that sums the log and what other
    clients do to the store between the write of the rebuilt balance and
    its verification. *)
Definition rebuildBalance_with (calculate : string -> M number) (others : store -> store)
    (userId : string) : M number :=
  let* _ := validateUserId userId in
  let balanceKey := getBalanceKey userId in
  let* correctBalance := calculate userId in
  let* _ := await (Upstash.set balanceKey correctBalance) in
  let* _ := (fun s => (Ok tt, others s)) in
  let* verification := verifyBalance_with calculate userId in
  if negb (BalanceVerification.valid verification) then
    throw (BalanceVerificationError
             ("Balance rebuild failed for user " ++ userId) userId
             (BalanceVerification.cached verification)
             (BalanceVerification.calculated verification))
  else ret correctBalance.

Definition rebuildBalance_among (others : store -> store) (sdk : t) (userId : string)
  : M number :=
  rebuildBalance_with (calculateBalanceFromTransactions sdk) others userId.

(** [rebuildBalance] with no concurrent writer. *)
Definition rebuildBalance (sdk : t) (userId : string) : M number :=
  rebuildBalance_among (fun s => s) sdk userId.

End CreditsSDK.

(** ** The methods that differ in dist/ (the bundle shipped with the
       package) from src/client.ts *)

Module Dist.

Definition MAX_RESULTS : number := Fin (of_Z 1000).

(** [typeof txData === "string" ? JSON.parse(txData) : txData] *)
Definition parse_if_string (txData : deserialised) : Transaction.t + exception :=
  match txData with
  | Text raw => JSON_parse (Garbage raw)
  | Object tx => inl tx
  end.

Definition getTransactions (sdk : CreditsSDK.t) (env : Env) (userId : string)
    (options : TransactionQueryOptions.t) : M (list Transaction.t) :=
  let* _ := CreditsSDK.validateUserId userId in
  let txsKey := CreditsSDK.getTransactionsKey userId in
  let limit := default (Fin (of_Z 50)) (TransactionQueryOptions.limit options) in
  if Number.le limit (Fin 0) || negb (Number.isInteger limit) then
    throw (TransactionError "limit must be a positive integer" None)
  else
    let effectiveLimit :=
      match Number.min limit MAX_RESULTS with
      | Fin q => default 0 (as_integer q)
      | _ => 0
      end in
    let* results :=
      match TransactionQueryOptions.startTime options,
            TransactionQueryOptions.endTime options with
      | None, None =>
          await (Upstash.zrange txsKey 0 (effectiveLimit - 1)
                   {| ZRangeOptions.byScore := false;
                      ZRangeOptions.rev := true;
                      ZRangeOptions.offset := None;
                      ZRangeOptions.count := None |})
      | startTime, endTime =>
          let min := default 0 startTime in
          let max := default (now env) endTime in
          let* allResults :=
            await (Upstash.zrange txsKey max min
                     {| ZRangeOptions.byScore := true;
                        ZRangeOptions.rev := true;
                        ZRangeOptions.offset := None;
                        ZRangeOptions.count := None |}) in
          ret (take (Z.to_nat effectiveLimit) allResults)
      end in
    lift (map_throwing
            (fun txData =>
               match parse_if_string txData with
               | inl tx => Ok tx
               | inr error =>
                   Throw (TransactionError
                            ("Failed to parse transaction data: " ++ exception_toString error)
                            None)
               end)
            results).

Definition calculateBalanceFromTransactions (sdk : CreditsSDK.t) (userId : string)
  : M number :=
  let txsKey := CreditsSDK.getTransactionsKey userId in
  let* results := await (Upstash.zrange txsKey 0 (-1) ZRangeOptions.none) in
  lift (reduce_throwing
          (fun sum txData =>
             match parse_if_string txData with
             | inl tx => Ok (Number.add sum (Fin (Transaction.amount tx)))
             | inr error =>
                 Throw (BalanceVerificationError
                          ("Failed to parse transaction data during balance calculation: "
                             ++ exception_toString error)
                          userId (Fin 0) (Fin 0))
             end)
          results (Fin 0)).

(** [verifyBalance] and [rebuildBalance] read in the bundle as in
    src/client.ts, and call the bundle's
    [calculateBalanceFromTransactions]. *)
Definition verifyBalance (sdk : CreditsSDK.t) (userId : string) : M BalanceVerification.t :=
  CreditsSDK.verifyBalance_with (calculateBalanceFromTransactions sdk) userId.

Definition rebuildBalance_among (others : store -> store) (sdk : CreditsSDK.t)
    (userId : string) : M number :=
  CreditsSDK.rebuildBalance_with (calculateBalanceFromTransactions sdk) others userId.

Definition rebuildBalance (sdk : CreditsSDK.t) (userId : string) : M number :=
  rebuildBalance_among (fun s => s) sdk userId.

End Dist.

(** ** The pricing engine (src/pricing.ts) *)

(** A pricing table is an object: its own entries by name. *)
Abbreviation table := (gmap string PricingConfig.t).

(** The objects that serve as pricing tables, by address.  An engine
    holds the address of its table, not a copy. *)
Abbreviation heap := (gmap nat table).

Definition PRICING_CONFIG : table :=
  {[ "video_generation" :=
       {| PricingConfig.rate := Fin (of_Z 10);
          PricingConfig.unit := "second";
          PricingConfig.calculate :=
            fun seconds => Number.ceil (Number.mul seconds (Fin (of_Z 10))) |};
     "training_job" :=
       {| PricingConfig.rate := Fin (of_Z 1000);
          PricingConfig.unit := "gpu_hour";
          PricingConfig.calculate :=
            fun hours => Number.ceil (Number.mul hours (Fin (of_Z 1000))) |} ]}.

(** The address of the one object [PRICING_CONFIG] of the module. *)
Definition PRICING_CONFIG_ref : nat := 0.

(** The heap when the module has been loaded. *)
Definition initial_heap : heap := {[ PRICING_CONFIG_ref := PRICING_CONFIG ]}.

Module FIXED_PRICING.
Definition chat_message : Z := 10.
Definition canvas_generation_simple : Z := 50.
Definition canvas_generation_complex : Z := 75.
End FIXED_PRICING.

(** The names every plain object inherits from [Object.prototype]. *)
Definition Object_prototype : list string :=
  [ "constructor"; "hasOwnProperty"; "isPrototypeOf"; "propertyIsEnumerable";
    "toLocaleString"; "toString"; "valueOf"; "__proto__";
    "__defineGetter__"; "__defineSetter__"; "__lookupGetter__"; "__lookupSetter__" ].

(** What [object[key]] finds: an entry of the table itself, a member of
    [Object.prototype] (a function, or the prototype itself for
    [__proto__]), or nothing. *)
Inductive property : Type :=
| Own (cfg : PricingConfig.t)
| Inherited
| Absent.

Definition get_property (object : table) (key : string) : property :=
  match object !! key with
  | Some cfg => Own cfg
  | None => if bool_decide (key ∈ Object_prototype) then Inherited else Absent
  end.

Module PricingEngine.

Record t : Type := mk { config : nat }.

(** [this.config = customConfig || PRICING_CONFIG] *)
Definition new (customConfig : option nat) : t :=
  {| config := default PRICING_CONFIG_ref customConfig |}.

(** [this.config[action]]; an address without a table is outside the
    model. *)
Definition lookup (engine : t) (action : string) (h : heap) : option property :=
  object ← h !! config engine; Some (get_property object action).

(** An inherited member is truthy, so it passes [!config]; it has no
    [calculate], and calling [undefined] raises a [TypeError]. *)
Definition calculateCost (engine : t) (action : string) (value : number) (h : heap)
  : result number :=
  match lookup engine action h with
  | None => Throw OutsideModel
  | Some Absent =>
      Throw (PricingConfigError
               ("No pricing configuration found for action: " ++ action) (Some action))
  | Some found =>
      if Number.lt value (Fin 0) then
        Throw (PricingConfigError
                 ("Value must be non-negative, got: " ++ number_toString value)
                 (Some action))
      else
        match found with
        | Own cfg => Ok (PricingConfig.calculate cfg value)
        | _ => Throw (TypeError "config.calculate is not a function")
        end
  end.

(** An inherited member is returned as if it were a configuration; the
    model has no value for it. *)
Definition getPricingConfig (engine : t) (action : string) (h : heap)
  : result PricingConfig.t :=
  match lookup engine action h with
  | Some (Own cfg) => Ok cfg
  | Some Absent =>
      Throw (PricingConfigError
               ("No pricing configuration found for action: " ++ action) (Some action))
  | _ => Throw OutsideModel
  end.

(** [action in this.config] *)
Definition hasPricingConfig (engine : t) (action : string) (h : heap) : option bool :=
  found ← lookup engine action h;
  Some match found with Absent => false | _ => true end.

(** [this.config[action] = config]: the table the engine points at is
    updated in place.  Assigning to [__proto__] replaces the prototype
    of a table that has no entry of that name, which the model does not
    represent. *)
Definition setPricingConfig (engine : t) (action : string) (cfg : PricingConfig.t)
    (h : heap) : option heap :=
  object ← h !! config engine;
  if bool_decide (action = "__proto__") && bool_decide (object !! action = None) then None
  else Some (<[config engine := <[action := cfg]> object]> h).

End PricingEngine.

(** * Vocabulary of the statements *)





(** The cached balance of a user, absence read as zero. *)
Definition balance_of (userId : string) (s : store) : Qc :=
  default 0%Qc (Redis.GET (CreditsSDK.getBalanceKey userId) s).

(** The transaction log of a user, lowest score first. *)
Definition log_of (userId : string) (s : store) : list entry :=
  zset (CreditsSDK.getTransactionsKey userId) s.

(** The transaction a log entry parses to. *)
Definition parsed (e : entry) : option Transaction.t :=
  match e.2 with
  | Json tx => Some tx
  | Garbage _ => None
  end.

(** Every entry of the log is a serialised transaction. *)
Definition parseable (zs : list entry) : Prop :=
  Forall (fun e => is_Some (parsed e)) zs.

(** The transactions of a log. *)
Definition transactions (zs : list entry) : list Transaction.t := omap parsed zs.

(** The sum of the amounts of the transactions of a log. *)
Definition total (zs : list entry) : Qc :=
  foldr (fun tx acc => (Transaction.amount tx + acc)%Qc) 0%Qc (transactions zs).

(** [validateUserId] lets the user id through. *)
Definition valid_userId (userId : string) : Prop :=
  CreditsSDK.validateUserId userId = ret tt.

(** The serialised transaction is not yet a member of the log. *)
Definition fresh (tx : Transaction.t) (zs : list entry) : Prop :=
  Forall (fun e => e.2 <> Json tx) zs.

(** The transaction [deduct] writes. *)
Definition deduct_transaction (env : Env) (amt : Qc) (action : string)
    (metadata : option Metadata) : Transaction.t :=
  {| Transaction.id := CreditsSDK.generateTxId env;
     Transaction.amount := (- amt)%Qc;
     Transaction.action := action;
     Transaction.metadata := metadata;
     Transaction.timestamp := now env |}.

(** The transaction [add] writes. *)
Definition add_transaction (env : Env) (amt : Qc) (action : string)
    (metadata : option Metadata) : Transaction.t :=
  {| Transaction.id := CreditsSDK.generateTxId env;
     Transaction.amount := amt;
     Transaction.action := action;
     Transaction.metadata := metadata;
     Transaction.timestamp := now env |}.

(** The genesis transaction [initializeUser] writes. *)
Definition genesis_transaction (env : Env) (starting : Qc) : Transaction.t :=
  {| Transaction.id := CreditsSDK.generateTxId env;
     Transaction.amount := starting;
     Transaction.action := "user_initialized";
     Transaction.metadata := Some [("starting_credits", SNumber starting)];
     Transaction.timestamp := now env |}.

(** The text of [error.message] when the [deduct] script finds the
    balance [b] too low. *)
Definition insufficient_message (fmt : error_format) (b : Qc) : string :=
  error_message fmt (INSUFFICIENT_CREDITS ++ ":" ++ lua_number2str b).

(** An error raised by validation: a [TransactionError] that carries no
    transaction id. *)
Definition validation_error (e : error) : Prop :=
  exists message, e = TransactionError message None.

(** A mutating call of the SDK. *)
Inductive call : Type :=
| Initialize (env : Env) (userId : string) (credits : option number)
| Deduct (env : Env) (userId : string) (amount : number) (action : string)
    (metadata : option Metadata)
| Add (env : Env) (userId : string) (amount : number) (action : string)
    (metadata : option Metadata).

Definition call_env (c : call) : Env :=
  match c with
  | Initialize env _ _ | Deduct env _ _ _ _ | Add env _ _ _ _ => env
  end.

Definition call_user (c : call) : string :=
  match c with
  | Initialize _ u _ | Deduct _ u _ _ _ | Add _ u _ _ _ => u
  end.

Definition call_txId (c : call) : string := CreditsSDK.generateTxId (call_env c).

Definition perform (sdk : CreditsSDK.t) (c : call) : M TransactionResult.t :=
  match c with
  | Initialize env u credits => CreditsSDK.initializeUser sdk env u credits
  | Deduct env u amount action metadata => CreditsSDK.deduct sdk env u amount action metadata
  | Add env u amount action metadata => CreditsSDK.add sdk env u amount action metadata
  end.

(** The calls run one after the other; [Some] of the final store when
    every one of them succeeded. *)
Fixpoint perform_all (sdk : CreditsSDK.t) (cs : list call) (s : store) : option store :=
  match cs with
  | [] => Some s
  | c :: rest =>
      match perform sdk c s with
      | (Ok _, s') => perform_all sdk rest s'
      | (Throw _, _) => None
      end
  end.



(** The amount is not a strictly positive finite number. *)
Definition bad_amount (amount : number) : bool :=
  Number.le amount (Fin 0) || negb (Number.isFinite amount).

(** The balance a call writes along with the transaction [tx]: the
    starting credits, or the sum of the balance and the amount, as a
    double. *)
Definition new_balance (c : call) (tx : Transaction.t) (s : store) : number :=
  match c with
  | Initialize _ _ _ => Fin (Transaction.amount tx)
  | _ => binary64 (balance_of (call_user c) s + Transaction.amount tx)
  end.

(** The call wrote the transaction [tx]: the balance of its user became
    the new balance and [tx] went into that user's log. *)
Definition wrote (c : call) (tx : Transaction.t) (s s' : store) : Prop :=
  let u := call_user c in
  Transaction.id tx = call_txId c /\
  (exists q, new_balance c tx s = Fin q /\
     scalars s' = <[CreditsSDK.getBalanceKey u := q]> (scalars s)) /\
  sorted_sets s' =
    <[CreditsSDK.getTransactionsKey u :=
        zadd (Transaction.timestamp tx) (Json tx) (log_of u s)]> (sorted_sets s).

(** The sign of the amount each kind of call writes. *)
Definition amount_allowed (c : call) (tx : Transaction.t) : Prop :=
  match c with
  | Initialize _ _ _ => (0 <= Transaction.amount tx)%Qc
  | Deduct _ _ _ _ _ => (Transaction.amount tx < 0)%Qc
  | Add _ _ _ _ _ => (0 < Transaction.amount tx)%Qc
  end.

(** The ids of the transactions in the log of a user. *)
Definition log_ids (userId : string) (s : store) : list string :=
  Transaction.id <$> transactions (log_of userId s).

(** The cached balance of the user agrees with the log. *)
Definition reconciled (userId : string) (s : store) : Prop :=
  parseable (log_of userId s) /\ balance_of userId s = total (log_of userId s).

(** The reducer of [calculateBalanceFromTransactions] in the bundle. *)
Definition add_amount (userId : string) (sum : number) (txData : deserialised)
  : result number :=
  match Dist.parse_if_string txData with
  | inl tx => Ok (Number.add sum (Fin (Transaction.amount tx)))
  | inr error =>
      Throw (BalanceVerificationError
               ("Failed to parse transaction data during balance calculation: "
                  ++ exception_toString error)
               userId (Fin 0) (Fin 0))
  end.


(** The amount a call asks for: the starting credits of [initializeUser]
    (the default of the SDK when none are given), the amount of [deduct]
    or [add]. *)
Definition call_amount (sdk : CreditsSDK.t) (c : call) : number :=
  match c with
  | Initialize _ _ credits => default (CreditsSDK.defaultCredits sdk) credits
  | Deduct _ _ amount _ _ | Add _ _ amount _ _ => amount
  end.

(** The size of an integer amount ([0] for any other number). *)
Definition units (x : number) : Z :=
  match x with
  | Fin q => Z.abs (default 0 (as_integer q))
  | _ => 0
  end.

(** The credits that the calls ask to move. *)
Definition volume (sdk : CreditsSDK.t) (cs : list call) : Z :=
  foldr (fun c acc => units (call_amount sdk c) + acc) 0 cs.

(** The calls that are about the user. *)
Definition calls_of (userId : string) (cs : list call) : list call :=
  filter (fun c => call_user c = userId) cs.

(** Every amount of the calls is an integer. *)
Definition whole_amounts (sdk : CreditsSDK.t) (cs : list call) : Prop :=
  Forall (fun c => Number.isInteger (call_amount sdk c) = true) cs.

(** Every amount of the log is an integer. *)
Definition whole_log (zs : list entry) : Prop :=
  Forall (fun tx => is_Some (as_integer (Transaction.amount tx))) (transactions zs).

(** The sizes of the amounts of the log, added up. *)
Definition log_volume (zs : list entry) : Z :=
  foldr (fun tx acc => units (Fin (Transaction.amount tx)) + acc) 0 (transactions zs).

(** The limit the bundle works with: [Math.min(limit, MAX_RESULTS)]. *)
Definition effectiveLimit (limit : number) : Z :=
  match Number.min limit Dist.MAX_RESULTS with
  | Fin q => default 0 (as_integer q)
  | _ => 0
  end.

(** ** Sample data *)

Definition example_sdk : CreditsSDK.t :=
  CreditsSDK.new
    {| CreditsConfig.url := "https://ledger.example";
       CreditsConfig.token := "secret";
       CreditsConfig.defaultCredits := None |}
    WithCode.

Definition at_time (t : Z) : Env :=
  {| id_now := t; id_random := "k3j9x0q2a"; now := t; later := t + 1 |}.

Definition no_options : TransactionQueryOptions.t :=
  {| TransactionQueryOptions.limit := None;
     TransactionQueryOptions.startTime := None;
     TransactionQueryOptions.endTime := None |}.

(** A user initialised with 100 credits. *)
Definition funded : store :=
  snd (CreditsSDK.initializeUser example_sdk (at_time 1000) "alice"
         (Some (Fin (of_Z 100))) empty_store).

(** ... who then spent 10 and received 50. *)
Definition busy : store :=
  snd (CreditsSDK.add example_sdk (at_time 1002) "alice" (Fin (of_Z 50)) "y" None
         (snd (CreditsSDK.deduct example_sdk (at_time 1001) "alice" (Fin (of_Z 10)) "x"
                 None funded))).


(** A user initialised with [10^14] credits. *)
Definition wealthy : store :=
  snd (CreditsSDK.initializeUser example_sdk (at_time 1000) "alice"
         (Some (Fin (of_Z (10 ^ 14)))) empty_store).



(** The same [add] of 5 credits twice, with the same reading of the
    clock and the same random suffix. *)
Definition twice : list call :=
  [ Add (at_time 1000) "alice" (Fin (of_Z 5)) "x" None;
    Add (at_time 1000) "alice" (Fin (of_Z 5)) "x" None ].

(** A start at [2^53] credits and one more credit. *)
Definition one_more : list call :=
  [ Initialize (at_time 1000) "alice" (Some (Fin (of_Z (2 ^ 53))));
    Add (at_time 1001) "alice" (Fin (of_Z 1)) "x" None ].

(** The calls of the scenario of the specification: start at 100,
    spend 10, receive 50. *)
Definition scenario : list call :=
  [ Initialize (at_time 1000) "alice" (Some (Fin (of_Z 100)));
    Deduct (at_time 1001) "alice" (Fin (of_Z 10)) "x" None;
    Add (at_time 1002) "alice" (Fin (of_Z 50)) "y" None ].

(** The busy user, with the cache overwritten from outside. *)
Definition tampered : store := Redis.SET "balance:alice" (of_Z 999) busy.




(** The double nearest to [n / d]. *)
Definition double (n d : Z) : Qc :=
  match binary64 (Q2Qc (n # Z.to_pos d)) with
  | Fin q => q
  | _ => 0%Qc
  end.

(** The finite number that a double of the machine denotes. *)
Definition finite_value (f : float) : Qc :=
  match of_float f with
  | Fin q => q
  | _ => 0%Qc
  end.

Definition same_number (x y : number) : bool :=
  match x, y with
  | Fin a, Fin b => Qc_eqb a b
  | NaN, NaN | PosInf, PosInf | NegInf, NegInf => true
  | _, _ => false
  end.

(** [binary64] gives for the sum, the difference and the product of two
    doubles what the floating-point unit gives. *)
Definition agrees_with_floats (ab : float * float) : bool :=
  let a := finite_value ab.1 in
  let b := finite_value ab.2 in
  same_number (binary64 (a + b)) (of_float (ab.1 + ab.2)%float) &&
  same_number (binary64 (a - b)) (of_float (ab.1 - ab.2)%float) &&
  same_number (binary64 (a * b)) (of_float (ab.1 * ab.2)%float).

(** Pairs of doubles: 1.1 and 10, 16.1 and 1000, 0.1 and 0.2, [10^16]
    and 1, [2^53] and 1, 100 and 1.5, [10^308] and 10, the largest
    double and [2^970], the smallest double and 0.5, two numbers whose
    product is subnormal, and a few more. *)
Definition sample_doubles : list (float * float) :=
  [ (0x1.199999999999ap+0, 10); (0x1.019999999999ap+4, 1000);
    (0x1.999999999999ap-4, 0x1.999999999999ap-3); (1e16, 1);
    (9007199254740992, 1); (9007199254740992, 3); (100, 1.5);
    (0x1.1ccf385ebc8ap+1023, 10); (0x1.fffffffffffffp+1023, 0x1p+970);
    (0x1.fffffffffffffp+1023, 0x1p+969); (0x1p-1074, 0.5); (0x1p-1074, 1.5);
    (0x1.87e92154ef7acp-665, 0x1.87e92154ef7acp-665); (-98.5, 1.5);
    (0x1.5555555555555p-2, 3); (123456789.125, 0x1.e2403a5e353f8p+19);
    (-0x1.199999999999ap+0, 0x1.199999999999ap+0); (0.75, -0.25) ]%float.

(** A purchase of one credit at time [t]. *)
Definition purchase_at (t : Z) : Transaction.t :=
  {| Transaction.id := "tx_" ++ decimal_Z t ++ "_r";
     Transaction.amount := of_Z 1;
     Transaction.action := "purchase";
     Transaction.metadata := None;
     Transaction.timestamp := t |}.

(** A user with 1001 purchases, one per millisecond from 1 to 1001. *)
Definition crowded : store :=
  {| scalars := {[ "balance:alice" := of_Z 1001 ]};
     sorted_sets := {[ "txs:alice" := (fun t => (t, Json (purchase_at t))) <$> seqZ 1 1001 ]};
     requests := 0 |}.

Definition with_limit (n : Z) : TransactionQueryOptions.t :=
  {| TransactionQueryOptions.limit := Some (Fin (of_Z n));
     TransactionQueryOptions.startTime := None;
     TransactionQueryOptions.endTime := None |}.

Definition in_window (n startTime endTime : Z) : TransactionQueryOptions.t :=
  {| TransactionQueryOptions.limit := Some (Fin (of_Z n));
     TransactionQueryOptions.startTime := Some startTime;
     TransactionQueryOptions.endTime := Some endTime |}.

(** How many transactions a query returned ([None] when it raised). *)
Definition returned {A : Type} (r : result (list A) * store) : option nat :=
  match r.1 with
  | Ok l => Some (length l)
  | Throw _ => None
  end.

(** * Properties *)

(** ** Comparisons of finite numbers *)

Lemma Qc_ltb_lt (x y : Qc) : Qc_ltb x y = true <-> (x < y)%Qc.
Proof.
  unfold Qc_ltb, Qclt. rewrite negb_true_iff.
  split; intros H.
  - apply Qnot_le_lt. intros Hle. apply Qle_bool_iff in Hle. congruence.
  - destruct (Qle_bool y x) eqn:E; [|reflexivity].
    apply Qle_bool_iff in E. exfalso. exact (Qlt_not_le _ _ H E).
Qed.

Lemma Qc_ltb_ge (x y : Qc) : Qc_ltb x y = false <-> (y <= x)%Qc.
Proof.
  unfold Qc_ltb, Qcle. rewrite negb_false_iff. apply Qle_bool_iff.
Qed.


Lemma Qc_leb_gt (x y : Qc) : Qc_leb x y = false <-> (y < x)%Qc.
Proof.
  rewrite <- Qc_ltb_lt. unfold Qc_leb, Qc_ltb.
  destruct (Qle_bool x y); simpl; split; congruence.
Qed.

Lemma Qc_eqb_eq (x y : Qc) : Qc_eqb x y = true <-> x = y.
Proof.
  unfold Qc_eqb. rewrite Qeq_bool_iff. split.
  - apply Qc_is_canon.
  - intros ->. reflexivity.
Qed.

Lemma Qc_lt_nonzero (a : Qc) : (0 < a)%Qc -> a <> 0%Qc.
Proof. intros H ->. exact (Qclt_not_eq _ _ H eq_refl). Qed.

Lemma Qc_opp_nonzero (a : Qc) : a <> 0%Qc -> (- a)%Qc <> 0%Qc.
Proof.
  intros Ha H. apply Ha.
  rewrite <- (Qcopp_involutive a), H. reflexivity.
Qed.

(** ** Digits *)

















(** ** The pattern *)





Lemma append_String (c : ascii) (s t : string) : String c s ++ t = String c (s ++ t).
Proof. reflexivity. Qed.

Lemma append_empty (t : string) : "" ++ t = t.
Proof. reflexivity. Qed.




Lemma includes_reply (fmt : error_format) (text : string) :
  includes (error_message fmt (INSUFFICIENT_CREDITS ++ text)) INSUFFICIENT_CREDITS = true.
Proof. destruct fmt; reflexivity. Qed.

(** ** Integers among the finite numbers *)

Lemma of_Z_this (z : Z) : this (of_Z z) = inject_Z z.
Proof.
  unfold of_Z, Q2Qc. cbn [this]. apply Qred_identity.
  cbn. apply Z.gcd_1_r.
Qed.

Lemma as_integer_of_Z (z : Z) : as_integer (of_Z z) = Some z.
Proof. unfold as_integer. rewrite of_Z_this. reflexivity. Qed.

(** ** ["%.14g"] on integers of at most 14 digits *)























(** ** The store *)

Lemma GET_sent (key : string) (s : store) : Redis.GET key (sent s) = Redis.GET key s.
Proof. reflexivity. Qed.

Lemma zset_sent (key : string) (s : store) : zset key (sent s) = zset key s.
Proof. reflexivity. Qed.

Lemma balance_of_sent (u : string) (s : store) : balance_of u (sent s) = balance_of u s.
Proof. reflexivity. Qed.

Lemma getBalanceKey_inj (u v : string) :
  CreditsSDK.getBalanceKey u = CreditsSDK.getBalanceKey v -> u = v.
Proof. unfold CreditsSDK.getBalanceKey. rewrite !append_String, !append_empty. congruence. Qed.

Lemma getTransactionsKey_inj (u v : string) :
  CreditsSDK.getTransactionsKey u = CreditsSDK.getTransactionsKey v -> u = v.
Proof. unfold CreditsSDK.getTransactionsKey. rewrite !append_String, !append_empty. congruence. Qed.

(** What a script's [SET] then [ZADD] leaves in the store. *)
Lemma written (bk tk : string) (v : Qc) (score : Z) (m : member) (s : store) :
  let s' := Redis.ZADD tk score m (Redis.SET bk v s) in
  scalars s' = <[bk := v]> (scalars s) /\
  sorted_sets s' = <[tk := zadd score m (zset tk s)]> (sorted_sets s) /\
  requests s' = requests s.
Proof. cbn. auto. Qed.

(** ** Adding to a sorted set *)

Lemma zinsert_Permutation (e : entry) (zs : list entry) :
  Permutation (zinsert e zs) (e :: zs).
Proof.
  induction zs as [|x zs IH]; cbn [zinsert]; [reflexivity|].
  destruct (entry_leb e x); [reflexivity|].
  rewrite IH. apply perm_swap.
Qed.

Lemma filter_fresh (tx : Transaction.t) (zs : list entry) :
  fresh tx zs -> filter (fun e : entry => e.2 <> Json tx) zs = zs.
Proof.
  induction 1 as [|x zs Hx _ IH]; [reflexivity|].
  rewrite filter_cons_True by exact Hx. f_equal. exact IH.
Qed.

(** A transaction that is new to the log is added as one more entry. *)
Lemma zadd_fresh (score : Z) (tx : Transaction.t) (zs : list entry) :
  fresh tx zs -> Permutation (zadd score (Json tx) zs) ((score, Json tx) :: zs).
Proof.
  intros H. unfold zadd. rewrite (filter_fresh _ _ H). apply zinsert_Permutation.
Qed.

Lemma elem_of_zadd (score : Z) (m : member) (zs : list entry) (e : entry) :
  e ∈ zadd score m zs -> e = (score, m) \/ e ∈ zs.
Proof.
  unfold zadd. rewrite (zinsert_Permutation (score, m)).
  rewrite elem_of_cons, list_elem_of_filter. tauto.
Qed.

Lemma total_Permutation (l1 l2 : list entry) :
  Permutation l1 l2 -> total l1 = total l2.
Proof.
  unfold total, transactions.
  induction 1 as [|x l1 l2 _ IH|x y l|l1 l2 l3 _ IH1 _ IH2]; cbn [omap list_omap].
  - reflexivity.
  - destruct (parsed x); cbn [foldr]; [f_equal|]; exact IH.
  - destruct (parsed x), (parsed y); cbn [foldr]; try reflexivity. ring.
  - congruence.
Qed.

Lemma total_cons (score : Z) (tx : Transaction.t) (zs : list entry) :
  total ((score, Json tx) :: zs) = (Transaction.amount tx + total zs)%Qc.
Proof. reflexivity. Qed.

Lemma parseable_Permutation (l1 l2 : list entry) :
  Permutation l1 l2 -> parseable l1 -> parseable l2.
Proof. unfold parseable. intros H. rewrite H. auto. Qed.

(** ** Integers as doubles *)

Lemma as_integer_of_Z_eq (q : Qc) (z : Z) : as_integer q = Some z -> q = of_Z z.
Proof.
  intros H. apply Qc_is_canon.
  unfold as_integer in H. destruct q as [[n d] Hc]. cbn [this Qnum Qden] in *.
  destruct (Pos.eqb d 1) eqn:E; [|discriminate].
  apply Pos.eqb_eq in E. subst d. injection H as ->.
  rewrite of_Z_this. reflexivity.
Qed.

Lemma of_Z_inj (a b : Z) : of_Z a = of_Z b -> a = b.
Proof.
  intros H. apply (f_equal this) in H. rewrite !of_Z_this in H.
  injection H as H. exact H.
Qed.

Lemma of_Z_add (a b : Z) : (of_Z a + of_Z b)%Qc = of_Z (a + b).
Proof.
  apply Qc_is_canon. unfold Qcplus, Q2Qc. cbn [this].
  rewrite Qred_correct, !of_Z_this.
  unfold Qeq, Qplus, inject_Z. cbn [Qnum Qden]. lia.
Qed.

Lemma of_Z_opp (a : Z) : (- of_Z a)%Qc = of_Z (- a).
Proof.
  apply Qc_is_canon. unfold Qcopp, Q2Qc. cbn [this].
  rewrite Qred_correct, !of_Z_this.
  unfold Qeq, Qopp, inject_Z. cbn [Qnum Qden]. lia.
Qed.

Lemma of_Z_sub (a b : Z) : (of_Z a - of_Z b)%Qc = of_Z (a - b).
Proof. unfold Qcminus. rewrite of_Z_opp, of_Z_add. f_equal. Qed.

Lemma of_Z_mul (a b : Z) : (of_Z a * of_Z b)%Qc = of_Z (a * b).
Proof.
  apply Qc_is_canon. unfold Qcmult, Q2Qc. cbn [this].
  rewrite Qred_correct, !of_Z_this.
  unfold Qeq, Qmult, inject_Z. cbn [Qnum Qden]. lia.
Qed.

Lemma of_Z_le (a b : Z) : a <= b <-> (of_Z a <= of_Z b)%Qc.
Proof. unfold Qcle. rewrite !of_Z_this. unfold Qle. cbn. lia. Qed.


Lemma round_half_even_exact (n d : Z) : 0 < d -> round_half_even (n * d) d = n.
Proof.
  intros Hd. unfold round_half_even.
  rewrite Z.div_mul, Z.mod_mul by lia.
  replace (2 * 0 ?= d) with Lt by (symmetry; apply Z.compare_lt_iff; lia).
  reflexivity.
Qed.

Lemma round_half_even_1 (n : Z) : round_half_even n 1 = n.
Proof.
  pose proof (round_half_even_exact n 1) as H. rewrite Z.mul_1_r in H.
  apply H. lia.
Qed.

Lemma log2_floor_integer (n : Z) : 0 < n -> log2_floor n 1 = Z.log2 n.
Proof.
  intros Hn. unfold log2_floor. change (Z.log2 1) with 0. rewrite Z.sub_0_r.
  pose proof (Z.log2_nonneg n) as Hnn. pose proof (Z.log2_spec n Hn) as [Hlow _].
  replace (0 <=? Z.log2 n) with true by (symmetry; apply Z.leb_le; exact Hnn).
  replace (1 * 2 ^ Z.log2 n <=? n) with true by (symmetry; apply Z.leb_le; lia).
  reflexivity.
Qed.

(** An integer of magnitude at most [2^53] is a double. *)
Lemma binary64_natural (n : Z) :
  0 < n <= 2 ^ 53 ->
  let e := Z.max (log2_floor n 1 - 52) (-1074) in
  let m := if 0 <=? e then round_half_even n (1 * 2 ^ e)
           else round_half_even (n * 2 ^ (- e)) 1 in
  (0 <=? e) && (2 ^ 1024 <=? m * 2 ^ e) = false /\
  (if 0 <=? e then of_Z (m * 2 ^ e) else Q2Qc (Qred (m # Z.to_pos (2 ^ (- e)))))
  = of_Z n.
Proof.
  intros [Hpos Hle]. rewrite (log2_floor_integer n Hpos).
  pose proof (Z.log2_nonneg n) as Hnn.
  pose proof (Z.log2_spec n Hpos) as [Hlow Hhigh].
  assert (Hlog : Z.log2 n <= 53).
  { change 53 with (Z.log2 (2 ^ 53)). apply Z.log2_le_mono. exact Hle. }
  cbv zeta. rewrite Z.max_l by lia.
  destruct (Z.eq_dec (Z.log2 n) 53) as [E53|N53].
  - rewrite E53 in *. assert (n = 2 ^ 53) by lia. subst n.
    split; vm_compute; reflexivity.
  - destruct (0 <=? Z.log2 n - 52) eqn:E.
    + apply Z.leb_le in E. assert (E52 : Z.log2 n = 52) by lia. rewrite E52.
      change (52 - 52) with 0. change (1 * 2 ^ 0) with 1.
      rewrite round_half_even_1. split.
      * apply Z.leb_gt.
        assert (2 ^ 53 < 2 ^ 1024) by (apply Z.pow_lt_mono_r; lia). lia.
      * f_equal. lia.
    + apply Z.leb_gt in E. split; [reflexivity|].
      rewrite round_half_even_1.
      assert (Hp : 0 < 2 ^ (- (Z.log2 n - 52))) by (apply Z.pow_pos_nonneg; lia).
      unfold of_Z. apply Q2Qc_eq_iff. rewrite Qred_correct.
      unfold Qeq, inject_Z. cbn [Qnum Qden].
      rewrite Z2Pos.id by exact Hp. lia.
Qed.

Lemma binary64_integer (z : Z) : Z.abs z <= 2 ^ 53 -> binary64 (of_Z z) = Fin (of_Z z).
Proof.
  intros Hz. unfold binary64. rewrite of_Z_this. cbn [Qnum Qden inject_Z].
  destruct (Z.abs z =? 0) eqn:E0.
  - apply Z.eqb_eq in E0. assert (z = 0) by lia. subst z. reflexivity.
  - apply Z.eqb_neq in E0.
    destruct (binary64_natural (Z.abs z)) as [Hfits Hvalue]; [lia|].
    cbv zeta in Hfits, Hvalue. rewrite Hfits, Hvalue.
    destruct (z <? 0) eqn:Es.
    + apply Z.ltb_lt in Es. rewrite of_Z_opp. do 2 f_equal. lia.
    + apply Z.ltb_ge in Es. do 2 f_equal. lia.
Qed.



(** Sums and differences of integers are exact as long as they stay
    within [2^53]. *)
Lemma binary64_add (a b : Z) :
  Z.abs (a + b) <= 2 ^ 53 -> binary64 (of_Z a + of_Z b) = Fin (of_Z (a + b)).
Proof. intros H. rewrite of_Z_add. apply binary64_integer, H. Qed.

Lemma binary64_sub (a b : Z) :
  Z.abs (a - b) <= 2 ^ 53 -> binary64 (of_Z a - of_Z b) = Fin (of_Z (a - b)).
Proof. intros H. rewrite of_Z_sub. apply binary64_integer, H. Qed.

(** Doubles at work: the sums, differences and products that are not
    exact. *)
Example binary64_rounds :
  binary64 (of_Z (10 ^ 16) - of_Z 1) = Fin (of_Z (10 ^ 16)) /\
  binary64 (of_Z (2 ^ 53) + of_Z 1) = Fin (of_Z (2 ^ 53)) /\
  binary64 (of_Z (2 ^ 53) + of_Z 3) = Fin (of_Z (2 ^ 53 + 4)) /\
  Number.mul (Fin (double 11 10)) (Fin (of_Z 10)) = Fin (of_Z 11) /\
  Number.mul (Fin (double (10 ^ 308) 1)) (Fin (of_Z 10)) = PosInf /\
  Number.add (Fin (double 1 10)) (Fin (double 2 10))
  = Fin (Q2Qc (1351079888211149 # 4503599627370496)) /\
  binary64 (Q2Qc (197 # 2)) = Fin (Q2Qc (197 # 2)) /\
  Lua.integer_reply (Fin (Q2Qc (197 # 2))) = Some 98 /\
  Lua.integer_reply (Fin (Q2Qc (1 # 2))) = Some 0 /\
  Lua.integer_reply (Fin (of_Z (2 ^ 63))) = None.
Proof. repeat split; vm_compute; reflexivity. Qed.

Example binary64_agrees_with_floats :
  forallb agrees_with_floats sample_doubles = true.
Proof. vm_compute. reflexivity. Qed.

(** [String(x)] on sample doubles. *)
Example number_toString_samples :
  number_toString (Fin (of_Z 100)) = "100" /\
  number_toString (Fin (of_Z (-7))) = "-7" /\
  number_toString (Fin (double (-5) 2)) = "-2.5" /\
  number_toString (Fin (double 1 10)) = "0.1" /\
  number_toString (Fin (double 1 3)) = "0.3333333333333333" /\
  number_toString (Number.add (Fin (double 1 10)) (Fin (double 2 10)))
  = "0.30000000000000004" /\
  number_toString (Fin (of_Z (10 ^ 21))) = "1e+21" /\
  number_toString (Fin (double 15 (10 ^ 8))) = "1.5e-7" /\
  number_toString (Fin (of_Z (2 ^ 53))) = "9007199254740992".
Proof. repeat split; vm_compute; reflexivity. Qed.

(** ** [deduct] *)

Lemma validateUserId_cases (u : string) :
  valid_userId u \/
  exists message, CreditsSDK.validateUserId u = throw (TransactionError message None).
Proof.
  unfold valid_userId, CreditsSDK.validateUserId.
  repeat match goal with |- context [if ?b then _ else _] => destruct b end; eauto.
Qed.

(** The checks that [deduct] and [add] make before they reach the store,
    passed with a valid user, a positive amount and a proper action. *)
Ltac pass_checks op Hu Hamt Hact :=
  unfold op, bind; rewrite Hu; cbn [ret Number.le];
  match goal with
  | |- context [Qc_leb ?amt 0] =>
      replace (Qc_leb amt 0) with false by (symmetry; apply Qc_leb_gt; exact Hamt)
  end;
  rewrite Hact.

Lemma deduct_insufficient (sdk : CreditsSDK.t) (env : Env) (u : string) (amt : Qc)
    (action : string) (md : option Metadata) (s : store) :
  valid_userId u -> (0 < amt)%Qc -> CreditsSDK.blank action = false ->
  (balance_of u s < amt)%Qc ->
  CreditsSDK.deduct sdk env u (Fin amt) action md s =
  (Throw (InsufficientCreditsError (Fin amt)
            (parseFloat
               (default "0"
                  (match_available
                     (insufficient_message (CreditsSDK.redis sdk) (balance_of u s)))))),
   sent s).
Proof.
  intros Hu Hamt Hact Hlow. pass_checks CreditsSDK.deduct Hu Hamt Hact.
  unfold try_catch, Upstash.eval, Lua.deduct.
  rewrite GET_sent. fold (balance_of u s).
  replace (Qc_ltb (balance_of u s) amt) with true
    by (symmetry; apply Qc_ltb_lt; exact Hlow).
  unfold CreditsSDK.deduct_catch. cbn [message Upstash.UpstashError].
  rewrite includes_reply. reflexivity.
Qed.







(** The same with valid calls only: a user initialised with [10^14]
    credits asks for twice as much.  Lua writes the balance as [1e+14],
    the pattern reads the leading [1]. *)
Example deduct_available_exponent :
  fst (CreditsSDK.initializeUser example_sdk (at_time 1000) "alice"
         (Some (Fin (of_Z (10 ^ 14)))) empty_store)
  = Ok {| TransactionResult.txId := "tx_1000_k3j9x0q2a";
          TransactionResult.balance := Fin (of_Z (10 ^ 14));
          TransactionResult.timestamp := 1000 |} /\
  insufficient_message WithCode (balance_of "alice" wealthy)
  = "ERR INSUFFICIENT_CREDITS:1e+14" /\
  fst (CreditsSDK.deduct example_sdk (at_time 2000) "alice" (Fin (of_Z (2 * 10 ^ 14))) "x"
         None wealthy)
  = Throw (InsufficientCreditsError (Fin (of_Z (2 * 10 ^ 14))) (Fin (of_Z 1))).
Proof. split; [|split]; vm_compute; reflexivity. Qed.

(** ["%.14g"] on sample values. *)
Example format_g14_plain :
  format_g14 (of_Z 0) = decimal_Z 0 /\
  format_g14 (of_Z 100) = decimal_Z 100 /\
  format_g14 (of_Z (-5)) = decimal_Z (-5) /\
  format_g14 (of_Z 99999999999999) = decimal_Z 99999999999999 /\
  format_g14 (of_Z (2 ^ 53)) = "9.007199254741e+15" /\
  format_g14 (Q2Qc (197 # 2)) = "98.5" /\
  format_g14 (Q2Qc (1 # 3)) = "0.33333333333333" /\
  format_g14 (Q2Qc (1 # 100000)) = "1e-05".
Proof. repeat split; vm_compute; reflexivity. Qed.

(** ** [add] and [initializeUser] *)

Lemma add_applied (sdk : CreditsSDK.t) (env : Env) (u : string) (amt : Qc)
    (action : string) (md : option Metadata) (s : store) (q : Qc) (r : Z) :
  valid_userId u -> (0 < amt)%Qc -> CreditsSDK.blank action = false ->
  binary64 (balance_of u s + amt) = Fin q -> Lua.integer_reply (Fin q) = Some r ->
  CreditsSDK.add sdk env u (Fin amt) action md s =
  (Ok {| TransactionResult.txId := CreditsSDK.generateTxId env;
         TransactionResult.balance := Fin (of_Z r);
         TransactionResult.timestamp := now env |},
   Redis.ZADD (CreditsSDK.getTransactionsKey u) (now env)
     (Json (add_transaction env amt action md))
     (Redis.SET (CreditsSDK.getBalanceKey u) q (sent s))).
Proof.
  intros Hu Hamt Hact Hq Hr. pass_checks CreditsSDK.add Hu Hamt Hact.
  unfold try_catch, Upstash.eval, Lua.add.
  rewrite GET_sent. fold (balance_of u s).
  rewrite Hq, Hr. reflexivity.
Qed.



(** ** Validation *)

Lemma deduct_rejects (sdk : CreditsSDK.t) (env : Env) (u : string) (amount : number)
    (action : string) (md : option Metadata) (s : store) :
  bad_amount amount = true \/ CreditsSDK.blank action = true ->
  exists message,
    CreditsSDK.deduct sdk env u amount action md s
    = (Throw (TransactionError message None), s).
Proof.
  intros Hbad. unfold CreditsSDK.deduct, bind.
  destruct (validateUserId_cases u) as [-> | [m ->]]; [|eexists; reflexivity].
  cbn [ret].
  destruct (Number.le amount (Fin 0)) eqn:Hle; [eexists; reflexivity|].
  destruct amount as [amt| | |]; try (eexists; reflexivity).
  destruct (CreditsSDK.blank action) eqn:Hact; [eexists; reflexivity|].
  exfalso. unfold bad_amount in Hbad. rewrite Hle in Hbad.
  destruct Hbad as [Hbad | Hbad]; discriminate Hbad.
Qed.

Lemma add_rejects (sdk : CreditsSDK.t) (env : Env) (u : string) (amount : number)
    (action : string) (md : option Metadata) (s : store) :
  bad_amount amount = true \/ CreditsSDK.blank action = true ->
  exists message,
    CreditsSDK.add sdk env u amount action md s
    = (Throw (TransactionError message None), s).
Proof.
  intros Hbad. unfold CreditsSDK.add, bind.
  destruct (validateUserId_cases u) as [-> | [m ->]]; [|eexists; reflexivity].
  cbn [ret].
  destruct (Number.le amount (Fin 0)) eqn:Hle; [eexists; reflexivity|].
  destruct amount as [amt| | |]; try (eexists; reflexivity).
  destruct (CreditsSDK.blank action) eqn:Hact; [eexists; reflexivity|].
  exfalso. unfold bad_amount in Hbad. rewrite Hle in Hbad.
  destruct Hbad as [Hbad | Hbad]; discriminate Hbad.
Qed.

(** C5, as amended.  A [deduct] or [add] whose amount is not a strictly
    positive finite number (zero, negative, [NaN] or infinite), or whose
    action is empty or blank, raises a [TransactionError] without
    transaction id and leaves the store as it was, the count of requests
    included: nothing was sent.  (A positive amount that is not an
    integer is accepted.) *)
Theorem bad_amount_or_action_rejected (sdk : CreditsSDK.t) (env : Env) (u : string)
    (amount : number) (action : string) (md : option Metadata) (s : store) :
  bad_amount amount = true \/ CreditsSDK.blank action = true ->
  (exists e, CreditsSDK.deduct sdk env u amount action md s = (Throw e, s) /\
             validation_error e) /\
  (exists e, CreditsSDK.add sdk env u amount action md s = (Throw e, s) /\
             validation_error e).
Proof.
  intros Hbad. split.
  - destruct (deduct_rejects sdk env u amount action md s Hbad) as [m Hm].
    exists (TransactionError m None). split; [exact Hm | exists m; reflexivity].
  - destruct (add_rejects sdk env u amount action md s Hbad) as [m Hm].
    exists (TransactionError m None). split; [exact Hm | exists m; reflexivity].
Qed.

(** The theorem at work: an amount of zero and an empty action. *)
Lemma bad_amount_or_action_rejected_witness :
  (bad_amount (Fin 0) = true \/ CreditsSDK.blank "" = true) /\
  (exists e, CreditsSDK.deduct example_sdk (at_time 1001) "alice" (Fin 0) "" None funded
             = (Throw e, funded) /\ validation_error e) /\
  (exists e, CreditsSDK.add example_sdk (at_time 1001) "alice" (Fin 0) "" None funded
             = (Throw e, funded) /\ validation_error e).
Proof.
  assert (H : bad_amount (Fin 0) = true \/ CreditsSDK.blank "" = true)
    by (left; reflexivity).
  split; [exact H|].
  exact (bad_amount_or_action_rejected example_sdk (at_time 1001) "alice" (Fin 0) ""
           None funded H).
Defined.

(** C5 as stated fails: an amount of 3/2 is not an integer, yet [deduct]
    and [add] accept it and change the balance, from 100 to 98.5 and to
    101.5. *)
Lemma fractional_amount_accepted :
  Number.isInteger (Fin (Q2Qc (3 # 2))) = false /\
  balance_of "alice" funded = of_Z 100 /\
  (exists r s',
     CreditsSDK.deduct example_sdk (at_time 1001) "alice" (Fin (Q2Qc (3 # 2))) "x" None
       funded = (Ok r, s') /\
     TransactionResult.txId r = "tx_1001_k3j9x0q2a" /\
     balance_of "alice" s' = Q2Qc (197 # 2)) /\
  (exists r s',
     CreditsSDK.add example_sdk (at_time 1001) "alice" (Fin (Q2Qc (3 # 2))) "x" None
       funded = (Ok r, s') /\
     TransactionResult.txId r = "tx_1001_k3j9x0q2a" /\
     balance_of "alice" s' = Q2Qc (203 # 2)).
Proof.
  split; [reflexivity|]. split; [vm_compute; reflexivity|]. split.
  - eexists _, _. split; [vm_compute; reflexivity|].
    split; vm_compute; reflexivity.
  - eexists _, _. split; [vm_compute; reflexivity|].
    split; vm_compute; reflexivity.
Qed.

(** What the two calls answer: the integer part of the new balance. *)
Example fractional_balance_answered_as_integer :
  fst (CreditsSDK.deduct example_sdk (at_time 1001) "alice" (Fin (Q2Qc (3 # 2))) "x" None
         funded)
  = Ok {| TransactionResult.txId := "tx_1001_k3j9x0q2a";
          TransactionResult.balance := Fin (of_Z 98);
          TransactionResult.timestamp := 1001 |} /\
  fst (CreditsSDK.add example_sdk (at_time 1001) "alice" (Fin (Q2Qc (3 # 2))) "x" None
         funded)
  = Ok {| TransactionResult.txId := "tx_1001_k3j9x0q2a";
          TransactionResult.balance := Fin (of_Z 101);
          TransactionResult.timestamp := 1001 |}.
Proof. split; vm_compute; reflexivity. Qed.

(** ** What a successful call does *)

Lemma bad_amount_false (amount : number) :
  bad_amount amount = false -> exists amt, amount = Fin amt /\ (0 < amt)%Qc.
Proof.
  unfold bad_amount. intros H. apply orb_false_iff in H as [Hle Hfin].
  destruct amount as [amt| | |]; try discriminate Hfin.
  exists amt. split; [reflexivity|]. apply Qc_leb_gt. exact Hle.
Qed.

Lemma deduct_invalid_user (sdk : CreditsSDK.t) (env : Env) (u : string) (amount : number)
    (action : string) (md : option Metadata) (s : store) (m : string) :
  CreditsSDK.validateUserId u = throw (TransactionError m None) ->
  CreditsSDK.deduct sdk env u amount action md s = (Throw (TransactionError m None), s).
Proof. intros H. unfold CreditsSDK.deduct, bind. rewrite H. reflexivity. Qed.

Lemma add_invalid_user (sdk : CreditsSDK.t) (env : Env) (u : string) (amount : number)
    (action : string) (md : option Metadata) (s : store) (m : string) :
  CreditsSDK.validateUserId u = throw (TransactionError m None) ->
  CreditsSDK.add sdk env u amount action md s = (Throw (TransactionError m None), s).
Proof. intros H. unfold CreditsSDK.add, bind. rewrite H. reflexivity. Qed.

(** What [deduct] does when the balance covers the amount; the call
    leaves the model when the new balance is not a finite number whose
    integer part fits 64 bits. *)
Lemma deduct_sufficient (sdk : CreditsSDK.t) (env : Env) (u : string) (amt : Qc)
    (action : string) (md : option Metadata) (s : store) :
  valid_userId u -> (0 < amt)%Qc -> CreditsSDK.blank action = false ->
  (amt <= balance_of u s)%Qc ->
  CreditsSDK.deduct sdk env u (Fin amt) action md s =
  match binary64 (balance_of u s - amt) with
  | Fin q =>
      match Lua.integer_reply (Fin q) with
      | Some r =>
          (Ok {| TransactionResult.txId := CreditsSDK.generateTxId env;
                 TransactionResult.balance := Fin (of_Z r);
                 TransactionResult.timestamp := now env |},
           Redis.ZADD (CreditsSDK.getTransactionsKey u) (now env)
             (Json (deduct_transaction env amt action md))
             (Redis.SET (CreditsSDK.getBalanceKey u) q (sent s)))
      | None => (Throw OutsideModel, sent s)
      end
  | _ => (Throw OutsideModel, sent s)
  end.
Proof.
  intros Hu Hamt Hact Hok. pass_checks CreditsSDK.deduct Hu Hamt Hact.
  unfold try_catch, Upstash.eval, Lua.deduct.
  rewrite GET_sent. fold (balance_of u s).
  replace (Qc_ltb (balance_of u s) amt) with false
    by (symmetry; apply Qc_ltb_ge; exact Hok).
  destruct (binary64 (balance_of u s - amt)) as [q| | |]; try reflexivity.
  destruct (Lua.integer_reply (Fin q)); reflexivity.
Qed.

Lemma add_valid (sdk : CreditsSDK.t) (env : Env) (u : string) (amt : Qc)
    (action : string) (md : option Metadata) (s : store) :
  valid_userId u -> (0 < amt)%Qc -> CreditsSDK.blank action = false ->
  CreditsSDK.add sdk env u (Fin amt) action md s =
  match binary64 (balance_of u s + amt) with
  | Fin q =>
      match Lua.integer_reply (Fin q) with
      | Some r =>
          (Ok {| TransactionResult.txId := CreditsSDK.generateTxId env;
                 TransactionResult.balance := Fin (of_Z r);
                 TransactionResult.timestamp := now env |},
           Redis.ZADD (CreditsSDK.getTransactionsKey u) (now env)
             (Json (add_transaction env amt action md))
             (Redis.SET (CreditsSDK.getBalanceKey u) q (sent s)))
      | None => (Throw OutsideModel, sent s)
      end
  | _ => (Throw OutsideModel, sent s)
  end.
Proof.
  intros Hu Hamt Hact. pass_checks CreditsSDK.add Hu Hamt Hact.
  unfold try_catch, Upstash.eval, Lua.add.
  rewrite GET_sent. fold (balance_of u s).
  destruct (binary64 (balance_of u s + amt)) as [q| | |]; try reflexivity.
  destruct (Lua.integer_reply (Fin q)); reflexivity.
Qed.

Lemma deduct_Ok (sdk : CreditsSDK.t) (env : Env) (u : string) (amount : number)
    (action : string) (md : option Metadata) (s s' : store) (r : TransactionResult.t) :
  CreditsSDK.deduct sdk env u amount action md s = (Ok r, s') ->
  exists amt q,
    amount = Fin amt /\ (0 < amt)%Qc /\ (amt <= balance_of u s)%Qc /\
    binary64 (balance_of u s - amt) = Fin q /\
    s' = Redis.ZADD (CreditsSDK.getTransactionsKey u) (now env)
           (Json (deduct_transaction env amt action md))
           (Redis.SET (CreditsSDK.getBalanceKey u) q (sent s)).
Proof.
  intros Hrun.
  destruct (validateUserId_cases u) as [Hu | [m Hm]];
    [|rewrite (deduct_invalid_user _ _ _ _ _ _ _ _ Hm) in Hrun; discriminate Hrun].
  destruct (bad_amount amount) eqn:Hbad.
  { destruct (deduct_rejects sdk env u amount action md s (or_introl Hbad)) as [m Hm].
    rewrite Hm in Hrun. discriminate Hrun. }
  destruct (CreditsSDK.blank action) eqn:Hact.
  { destruct (deduct_rejects sdk env u amount action md s (or_intror Hact)) as [m Hm].
    rewrite Hm in Hrun. discriminate Hrun. }
  destruct (bad_amount_false _ Hbad) as (amt & -> & Hamt).
  destruct (Qclt_le_dec (balance_of u s) amt) as [Hlow | Hok].
  - rewrite (deduct_insufficient _ _ _ _ _ _ _ Hu Hamt Hact Hlow) in Hrun.
    discriminate Hrun.
  - rewrite (deduct_sufficient _ _ _ _ _ _ _ Hu Hamt Hact Hok) in Hrun.
    destruct (binary64 (balance_of u s - amt)) as [q| | |] eqn:Hq;
      try discriminate Hrun.
    destruct (Lua.integer_reply (Fin q)); [|discriminate Hrun].
    exists amt, q. split; [reflexivity|]. split; [exact Hamt|]. split; [exact Hok|].
    split; [exact Hq|]. congruence.
Qed.

Lemma add_Ok (sdk : CreditsSDK.t) (env : Env) (u : string) (amount : number)
    (action : string) (md : option Metadata) (s s' : store) (r : TransactionResult.t) :
  CreditsSDK.add sdk env u amount action md s = (Ok r, s') ->
  exists amt q,
    amount = Fin amt /\ (0 < amt)%Qc /\
    binary64 (balance_of u s + amt) = Fin q /\
    s' = Redis.ZADD (CreditsSDK.getTransactionsKey u) (now env)
           (Json (add_transaction env amt action md))
           (Redis.SET (CreditsSDK.getBalanceKey u) q (sent s)).
Proof.
  intros Hrun.
  destruct (validateUserId_cases u) as [Hu | [m Hm]];
    [|rewrite (add_invalid_user _ _ _ _ _ _ _ _ Hm) in Hrun; discriminate Hrun].
  destruct (bad_amount amount) eqn:Hbad.
  { destruct (add_rejects sdk env u amount action md s (or_introl Hbad)) as [m Hm].
    rewrite Hm in Hrun. discriminate Hrun. }
  destruct (CreditsSDK.blank action) eqn:Hact.
  { destruct (add_rejects sdk env u amount action md s (or_intror Hact)) as [m Hm].
    rewrite Hm in Hrun. discriminate Hrun. }
  destruct (bad_amount_false _ Hbad) as (amt & -> & Hamt).
  rewrite (add_valid _ _ _ _ _ _ _ Hu Hamt Hact) in Hrun.
  destruct (binary64 (balance_of u s + amt)) as [q| | |] eqn:Hq;
    try discriminate Hrun.
  destruct (Lua.integer_reply (Fin q)); [|discriminate Hrun].
  exists amt, q. split; [reflexivity|]. split; [exact Hamt|].
  split; [exact Hq|]. congruence.
Qed.

Lemma initializeUser_Ok (sdk : CreditsSDK.t) (env : Env) (u : string)
    (credits : option number) (s s' : store) (r : TransactionResult.t) :
  CreditsSDK.initializeUser sdk env u credits s = (Ok r, s') ->
  (is_Some (Redis.GET (CreditsSDK.getBalanceKey u) s) /\ s' = sent s) \/
  exists x,
    default (CreditsSDK.defaultCredits sdk) credits = Fin x /\
    (0 <= x)%Qc /\ Redis.GET (CreditsSDK.getBalanceKey u) s = None /\
    s' = Redis.ZADD (CreditsSDK.getTransactionsKey u) (now env)
           (Json (genesis_transaction env x))
           (Redis.SET (CreditsSDK.getBalanceKey u) x (sent s)).
Proof.
  unfold CreditsSDK.initializeUser, bind.
  destruct (validateUserId_cases u) as [-> | [m ->]]; [|discriminate].
  cbn [ret].
  destruct (default (CreditsSDK.defaultCredits sdk) credits) as [x| | |];
    cbn [Number.lt]; try discriminate.
  destruct (Qc_ltb x 0) eqn:Hx; [discriminate|]. apply Qc_ltb_ge in Hx.
  unfold try_catch, Upstash.eval, Lua.initializeUser. rewrite GET_sent.
  destruct (Redis.GET (CreditsSDK.getBalanceKey u) s) as [b|] eqn:Hget.
  - destruct (Lua.integer_reply (Fin b)); cbn; [|discriminate].
    intros [= _ <-]. left. eauto.
  - destruct (Lua.integer_reply (Fin x)); cbn; [|discriminate].
    intros [= _ <-]. right. exists x. auto.
Qed.

Lemma balance_of_absent (u : string) (s : store) :
  Redis.GET (CreditsSDK.getBalanceKey u) s = None -> balance_of u s = 0%Qc.
Proof. unfold balance_of. intros ->. reflexivity. Qed.

(** A call that succeeds leaves balances and logs alone, or writes one
    transaction. *)
Lemma perform_effect (sdk : CreditsSDK.t) (c : call) (s s' : store)
    (r : TransactionResult.t) :
  perform sdk c s = (Ok r, s') ->
  (scalars s' = scalars s /\ sorted_sets s' = sorted_sets s) \/
  exists tx, wrote c tx s s' /\ amount_allowed c tx.
Proof.
  destruct c as [env u credits | env u amount action md | env u amount action md];
    cbn [perform]; intros Hrun.
  - apply initializeUser_Ok in Hrun as [[_ ->] | (x & _ & Hx & Habsent & ->)];
      [left; split; reflexivity|].
    right. exists (genesis_transaction env x). split; [|exact Hx].
    unfold wrote. cbn [call_user call_txId call_env]. split; [reflexivity|].
    split; [|reflexivity]. exists x. split; reflexivity.
  - apply deduct_Ok in Hrun as (amt & q & -> & Hamt & _ & Hq & ->).
    right. exists (deduct_transaction env amt action md). split.
    + unfold wrote. cbn [call_user call_txId call_env]. split; [reflexivity|].
      split; [|reflexivity]. exists q. split; [exact Hq | reflexivity].
    + cbn. apply Qclt_minus_iff. rewrite Qcopp_involutive, Qcplus_0_l. exact Hamt.
  - apply add_Ok in Hrun as (amt & q & -> & Hamt & Hq & ->).
    right. exists (add_transaction env amt action md). split; [|exact Hamt].
    unfold wrote. cbn [call_user call_txId call_env]. split; [reflexivity|].
    split; [|reflexivity]. exists q. split; [exact Hq | reflexivity].
Qed.

Lemma perform_Throw (sdk : CreditsSDK.t) (c : call) (s s' : store) (e : error) :
  perform sdk c s = (Throw e, s') ->
  scalars s' = scalars s /\ sorted_sets s' = sorted_sets s.
Proof.
  destruct c as [env u credits | env u amount action md | env u amount action md];
    cbn [perform]; intros Hrun.
  - revert Hrun. unfold CreditsSDK.initializeUser, bind.
    destruct (validateUserId_cases u) as [-> | [m ->]]; [|intros [= _ <-]; auto].
    cbn [ret].
    destruct (default (CreditsSDK.defaultCredits sdk) credits) as [x| | |];
      cbn [Number.lt]; try (intros [= _ <-]; auto).
    destruct (Qc_ltb x 0); [intros [= _ <-]; auto|].
    unfold try_catch, Upstash.eval, Lua.initializeUser.
    destruct (Redis.GET (CreditsSDK.getBalanceKey u) (sent s)) as [b|];
      [destruct (Lua.integer_reply (Fin b)) | destruct (Lua.integer_reply (Fin x))];
      cbn; first [discriminate | intros [= _ <-]; auto].
  - destruct (validateUserId_cases u) as [Hu | [m Hm]];
      [|rewrite (deduct_invalid_user _ _ _ _ _ _ _ _ Hm) in Hrun;
        injection Hrun as _ <-; auto].
    destruct (bad_amount amount) eqn:Hbad.
    { destruct (deduct_rejects sdk env u amount action md s (or_introl Hbad)) as [m Hm].
      rewrite Hm in Hrun. injection Hrun as _ <-. auto. }
    destruct (CreditsSDK.blank action) eqn:Hact.
    { destruct (deduct_rejects sdk env u amount action md s (or_intror Hact)) as [m Hm].
      rewrite Hm in Hrun. injection Hrun as _ <-. auto. }
    destruct (bad_amount_false _ Hbad) as (amt & -> & Hamt).
    destruct (Qclt_le_dec (balance_of u s) amt) as [Hlow | Hok].
    + rewrite (deduct_insufficient _ _ _ _ _ _ _ Hu Hamt Hact Hlow) in Hrun.
      injection Hrun as _ <-. auto.
    + rewrite (deduct_sufficient _ _ _ _ _ _ _ Hu Hamt Hact Hok) in Hrun.
      destruct (binary64 (balance_of u s - amt)) as [q| | |];
        [destruct (Lua.integer_reply (Fin q)); [discriminate Hrun|]|..];
        injection Hrun as _ <-; auto.
  - destruct (validateUserId_cases u) as [Hu | [m Hm]];
      [|rewrite (add_invalid_user _ _ _ _ _ _ _ _ Hm) in Hrun;
        injection Hrun as _ <-; auto].
    destruct (bad_amount amount) eqn:Hbad.
    { destruct (add_rejects sdk env u amount action md s (or_introl Hbad)) as [m Hm].
      rewrite Hm in Hrun. injection Hrun as _ <-. auto. }
    destruct (CreditsSDK.blank action) eqn:Hact.
    { destruct (add_rejects sdk env u amount action md s (or_intror Hact)) as [m Hm].
      rewrite Hm in Hrun. injection Hrun as _ <-. auto. }
    destruct (bad_amount_false _ Hbad) as (amt & -> & Hamt).
    rewrite (add_valid _ _ _ _ _ _ _ Hu Hamt Hact) in Hrun.
    destruct (binary64 (balance_of u s + amt)) as [q| | |];
      [destruct (Lua.integer_reply (Fin q)); [discriminate Hrun|]|..];
      injection Hrun as _ <-; auto.
Qed.

(** ** The balance is the sum of the log *)

Lemma balance_of_unchanged (u : string) (s s' : store) :
  scalars s' = scalars s -> balance_of u s' = balance_of u s.
Proof. unfold balance_of, Redis.GET. intros ->. reflexivity. Qed.

Lemma log_of_unchanged (u : string) (s s' : store) :
  sorted_sets s' = sorted_sets s -> log_of u s' = log_of u s.
Proof. unfold log_of, zset. intros ->. reflexivity. Qed.

Lemma fresh_id (u : string) (s : store) (tx : Transaction.t) :
  Transaction.id tx ∉ log_ids u s -> fresh tx (log_of u s).
Proof.
  unfold log_ids, transactions, fresh. intros Hid.
  apply Forall_forall. intros e He Heq. apply Hid.
  apply list_elem_of_fmap. exists tx. split; [reflexivity|].
  apply list_elem_of_omap. exists e. split; [exact He|].
  unfold parsed. rewrite Heq. reflexivity.
Qed.

Lemma transactions_Permutation (l1 l2 : list entry) :
  Permutation l1 l2 -> Permutation (transactions l1) (transactions l2).
Proof. unfold transactions. intros H. rewrite H. reflexivity. Qed.

(** A call about another user leaves the balance and the log of [u]
    alone. *)
Lemma perform_other (sdk : CreditsSDK.t) (u : string) (c : call) (s s' : store)
    (outcome : result TransactionResult.t) :
  perform sdk c s = (outcome, s') -> call_user c <> u ->
  balance_of u s' = balance_of u s /\ log_of u s' = log_of u s.
Proof.
  intros Hrun Hother. destruct outcome as [r|e].
  - destruct (perform_effect _ _ _ _ _ Hrun)
      as [[Hs Hz] | (tx & (_ & (q & _ & Hs) & Hz) & _)].
    + split; [apply balance_of_unchanged, Hs | apply log_of_unchanged, Hz].
    + split.
      * unfold balance_of, Redis.GET. rewrite Hs, lookup_insert_ne; [reflexivity|].
        intros Hk. apply Hother, getBalanceKey_inj, Hk.
      * unfold log_of, zset. rewrite Hz, lookup_insert_ne; [reflexivity|].
        intros Hk. apply Hother, getTransactionsKey_inj, Hk.
  - destruct (perform_Throw _ _ _ _ _ Hrun) as [Hs Hz].
    split; [apply balance_of_unchanged, Hs | apply log_of_unchanged, Hz].
Qed.

(** What a successful call about [u] writes: nothing, or a transaction
    whose amount is the amount of the call, with its sign, next to the
    new balance. *)
Lemma perform_own (sdk : CreditsSDK.t) (c : call) (s s' : store)
    (r : TransactionResult.t) :
  perform sdk c s = (Ok r, s') ->
  let u := call_user c in
  (balance_of u s' = balance_of u s /\ log_of u s' = log_of u s) \/
  exists (tx : Transaction.t) (a q : Qc),
    call_amount sdk c = Fin a /\ (0 <= a)%Qc /\
    Transaction.id tx = call_txId c /\
    balance_of u s' = q /\
    log_of u s' = zadd (Transaction.timestamp tx) (Json tx) (log_of u s) /\
    match c with
    | Initialize _ _ _ =>
        Transaction.amount tx = a /\ balance_of u s = 0%Qc /\ q = a
    | Deduct _ _ _ _ _ =>
        Transaction.amount tx = (- a)%Qc /\ (a <= balance_of u s)%Qc /\
        binary64 (balance_of u s - a) = Fin q
    | Add _ _ _ _ _ =>
        Transaction.amount tx = a /\ binary64 (balance_of u s + a) = Fin q
    end.
Proof.
  assert (Hwritten : forall u tx q t,
            balance_of u (Redis.ZADD (CreditsSDK.getTransactionsKey u) t (Json tx)
                            (Redis.SET (CreditsSDK.getBalanceKey u) q (sent s))) = q /\
            log_of u (Redis.ZADD (CreditsSDK.getTransactionsKey u) t (Json tx)
                        (Redis.SET (CreditsSDK.getBalanceKey u) q (sent s)))
            = zadd t (Json tx) (log_of u s)).
  { intros u tx q t. split.
    - unfold balance_of, Redis.GET. cbn [scalars Redis.ZADD Redis.SET].
      rewrite lookup_insert_eq. reflexivity.
    - unfold log_of, zset at 1. cbn [sorted_sets Redis.ZADD Redis.SET].
      rewrite lookup_insert_eq. reflexivity. }
  destruct c as [env u credits | env u amount action md | env u amount action md];
    cbn [perform call_user call_amount call_txId call_env]; intros Hrun.
  - apply initializeUser_Ok in Hrun as [[_ ->] | (x & Hcredits & Hx & Habsent & ->)].
    + left. split; [apply balance_of_sent | apply zset_sent].
    + right. exists (genesis_transaction env x), x, x.
      destruct (Hwritten u (genesis_transaction env x) x (now env)) as [Hb Hl].
      split; [exact Hcredits|]. split; [exact Hx|]. split; [reflexivity|].
      split; [exact Hb|]. split; [exact Hl|].
      split; [reflexivity|]. split; [apply balance_of_absent, Habsent | reflexivity].
  - apply deduct_Ok in Hrun as (amt & q & -> & Hamt & Hok & Hq & ->).
    right. exists (deduct_transaction env amt action md), amt, q.
    destruct (Hwritten u (deduct_transaction env amt action md) q (now env)) as [Hb Hl].
    split; [reflexivity|]. split; [apply Qclt_le_weak, Hamt|]. split; [reflexivity|].
    split; [exact Hb|]. split; [exact Hl|]. split; [reflexivity|]. split; assumption.
  - apply add_Ok in Hrun as (amt & q & -> & Hamt & Hq & ->).
    right. exists (add_transaction env amt action md), amt, q.
    destruct (Hwritten u (add_transaction env amt action md) q (now env)) as [Hb Hl].
    split; [reflexivity|]. split; [apply Qclt_le_weak, Hamt|]. split; [reflexivity|].
    split; [exact Hb|]. split; [exact Hl|]. split; [reflexivity | assumption].
Qed.

(** The size of an amount that is a non-negative integer. *)
Lemma units_whole (a : Qc) :
  Number.isInteger (Fin a) = true -> (0 <= a)%Qc ->
  a = of_Z (units (Fin a)) /\ 0 <= units (Fin a).
Proof.
  intros Hint Ha. cbn [Number.isInteger] in Hint.
  apply bool_decide_eq_true in Hint as [z Hz].
  pose proof (as_integer_of_Z_eq _ _ Hz) as ->.
  cbn [units]. rewrite as_integer_of_Z. cbn [default from_option id].
  assert (0 <= z) by (apply (proj2 (of_Z_le 0 z)), Ha).
  rewrite Z.abs_eq by assumption. auto.
Qed.

(** One successful call about [u] keeps the balance of [u] equal to the
    sum of its log, provided the id of the call is new to that log, the
    amount is an integer and the balance stays within [2^53]. *)
Lemma perform_reconciled (sdk : CreditsSDK.t) (c : call) (s s' : store)
    (r : TransactionResult.t) (zb : Z) :
  let u := call_user c in
  perform sdk c s = (Ok r, s') ->
  reconciled u s -> call_txId c ∉ log_ids u s ->
  Number.isInteger (call_amount sdk c) = true ->
  balance_of u s = of_Z zb -> 0 <= zb ->
  zb + units (call_amount sdk c) <= 2 ^ 53 ->
  reconciled u s' /\
  (forall i, i ∈ log_ids u s' -> i = call_txId c \/ i ∈ log_ids u s) /\
  exists zb', balance_of u s' = of_Z zb' /\ 0 <= zb' <= zb + units (call_amount sdk c).
Proof.
  intros u Hrun [Hparse Hsum] Hnew Hwhole Hzb Hpos Hbound. subst u.
  pose proof (perform_own sdk c s s' r Hrun) as Hown. cbv zeta in Hown.
  set (u := call_user c) in *.
  destruct Hown as [[Hb Hl] | (tx & a & q & Ha & Hnn & Hid & Hb & Hl & Hkind)].
  - unfold reconciled, log_ids. rewrite Hb, Hl.
    split; [auto|]. split; [auto|]. exists zb. split; [exact Hzb|].
    assert (0 <= units (call_amount sdk c)).
    { unfold units. destruct (call_amount sdk c); [apply Z.abs_nonneg | lia..]. }
    lia.
  - rewrite Ha in Hwhole, Hbound |- *.
    destruct (units_whole a Hwhole Hnn) as [Hau Hupos].
    set (za := units (Fin a)) in *.
    assert (Hfresh : fresh tx (log_of u s)) by (apply fresh_id; rewrite Hid; exact Hnew).
    assert (Hlog : Permutation (log_of u s')
                     ((Transaction.timestamp tx, Json tx) :: log_of u s)).
    { rewrite Hl. apply zadd_fresh, Hfresh. }
    assert (Hq : exists zb', q = of_Z zb' /\ 0 <= zb' <= zb + za /\
                             q = (Transaction.amount tx + balance_of u s)%Qc).
    { destruct c; cbn beta iota in Hkind.
      - destruct Hkind as (Hamt & Hzero & ->). exists za.
        split; [exact Hau|]. split; [lia|]. rewrite Hamt, Hzero. ring.
      - destruct Hkind as (Hamt & Hok & Hround).
        rewrite Hzb, Hau in Hround, Hok. apply (proj2 (of_Z_le za zb)) in Hok.
        rewrite binary64_sub in Hround by lia. injection Hround as <-.
        exists (zb - za). split; [reflexivity|]. split; [lia|].
        rewrite Hamt, Hzb, Hau, of_Z_opp, of_Z_add. f_equal. lia.
      - destruct Hkind as (Hamt & Hround).
        rewrite Hzb, Hau in Hround.
        rewrite binary64_add in Hround by lia. injection Hround as <-.
        exists (zb + za). split; [reflexivity|]. split; [lia|].
        rewrite Hamt, Hzb, Hau, of_Z_add. f_equal. lia. }
    destruct Hq as (zb' & Hq & Hrange & Hval).
    split; [split|split].
    + apply (parseable_Permutation _ _ (Permutation_sym Hlog)).
      constructor; [eexists; reflexivity | exact Hparse].
    + rewrite Hb, (total_Permutation _ _ Hlog), total_cons, Hval, Hsum. reflexivity.
    + intros i Hi. unfold log_ids in Hi.
      rewrite (transactions_Permutation _ _ Hlog) in Hi.
      cbn in Hi. apply elem_of_cons in Hi as [-> | Hi]; [left; exact Hid | right; exact Hi].
    + exists zb'. rewrite Hb. split; [exact Hq | exact Hrange].
Qed.

Lemma units_nonneg (x : number) : 0 <= units x.
Proof. unfold units. destruct x; [apply Z.abs_nonneg | lia..]. Qed.

Lemma volume_nonneg (sdk : CreditsSDK.t) (cs : list call) : 0 <= volume sdk cs.
Proof.
  induction cs as [|c cs IH]; cbn [volume foldr]; [lia|].
  fold (volume sdk cs). pose proof (units_nonneg (call_amount sdk c)). lia.
Qed.

Lemma perform_all_reconciled (sdk : CreditsSDK.t) (u : string) (cs : list call) :
  forall s s' zb,
    reconciled u s ->
    balance_of u s = of_Z zb -> 0 <= zb ->
    zb + volume sdk (calls_of u cs) <= 2 ^ 53 ->
    whole_amounts sdk (calls_of u cs) ->
    (forall i, i ∈ log_ids u s -> i ∉ call_txId <$> cs) ->
    NoDup (call_txId <$> cs) ->
    perform_all sdk cs s = Some s' ->
    reconciled u s'.
Proof.
  induction cs as [|c cs IH]; intros s s' zb Hrec Hzb Hpos Hvol Hwhole Hids Hnodup Hrun.
  - cbn in Hrun. congruence.
  - cbn [perform_all] in Hrun.
    destruct (perform sdk c s) as [[r|e] s1] eqn:Hc; [|discriminate Hrun].
    cbn [fmap list_fmap] in Hnodup, Hids. apply NoDup_cons in Hnodup as [Hc_new Hnodup].
    destruct (decide (call_user c = u)) as [Hu | Hother].
    + unfold calls_of in Hvol, Hwhole. rewrite filter_cons_True in Hvol, Hwhole by exact Hu.
      fold (calls_of u cs) in Hvol, Hwhole.
      cbn [volume foldr] in Hvol. fold (volume sdk (calls_of u cs)) in Hvol.
      apply Forall_cons in Hwhole as [Hwhole_c Hwhole].
      subst u.
      assert (Hnew : call_txId c ∉ log_ids (call_user c) s).
      { intros Hin. apply (Hids _ Hin). left. }
      pose proof (volume_nonneg sdk (calls_of (call_user c) cs)) as Hvn.
      destruct (perform_reconciled sdk c s s1 r zb Hc Hrec Hnew Hwhole_c Hzb Hpos)
        as (Hrec1 & Hids1 & zb' & Hzb' & Hrange); [lia|].
      apply (IH s1 s' zb' Hrec1 Hzb'); [lia|lia|exact Hwhole| |exact Hnodup|exact Hrun].
      intros i Hi Hin. destruct (Hids1 i Hi) as [-> | Hold].
      * exact (Hc_new Hin).
      * apply (Hids i Hold). right. exact Hin.
    + unfold calls_of in Hvol, Hwhole. rewrite filter_cons_False in Hvol, Hwhole by exact Hother.
      fold (calls_of u cs) in Hvol, Hwhole.
      destruct (perform_other sdk u c s s1 _ Hc Hother) as [Hb Hl].
      apply (IH s1 s' zb); try assumption.
      * unfold reconciled. rewrite Hb, Hl. exact Hrec.
      * rewrite Hb. exact Hzb.
      * intros i Hi Hin. unfold log_ids in Hi. rewrite Hl in Hi.
        apply (Hids i Hi). right. exact Hin.
Qed.

(** C2, as amended.  Start from a store in which the user is absent and
    run any calls of [initializeUser], [deduct] and [add], for any users,
    all of which succeed and whose generated ids are pairwise distinct.
    When the amounts of the calls about the user are integers that add
    up to at most [2^53], every entry of the user's log is a transaction
    and the cached balance is the sum of their amounts. *)
Theorem balance_is_sum_of_log (sdk : CreditsSDK.t) (u : string) (cs : list call)
    (s s' : store) :
  Redis.GET (CreditsSDK.getBalanceKey u) s = None ->
  log_of u s = [] ->
  NoDup (call_txId <$> cs) ->
  whole_amounts sdk (calls_of u cs) ->
  volume sdk (calls_of u cs) <= 2 ^ 53 ->
  perform_all sdk cs s = Some s' ->
  parseable (log_of u s') /\ balance_of u s' = total (log_of u s').
Proof.
  intros Habsent Hempty Hnodup Hwhole Hvol Hrun.
  assert (Hrec : reconciled u s).
  { unfold reconciled. rewrite Hempty, (balance_of_absent _ _ Habsent).
    split; [constructor | reflexivity]. }
  assert (Hids : forall i, i ∈ log_ids u s -> i ∉ call_txId <$> cs).
  { unfold log_ids. rewrite Hempty. intros i Hi. cbn in Hi. inversion Hi. }
  apply (perform_all_reconciled sdk u cs s s' 0);
    first [assumption | apply balance_of_absent, Habsent | lia].
Qed.

(** The theorem at work on the scenario of the specification: start at
    100, spend 10, receive 50. *)
Lemma balance_is_sum_of_log_witness :
  Redis.GET (CreditsSDK.getBalanceKey "alice") empty_store = None /\
  log_of "alice" empty_store = [] /\
  NoDup (call_txId <$> scenario) /\
  whole_amounts example_sdk (calls_of "alice" scenario) /\
  volume example_sdk (calls_of "alice" scenario) <= 2 ^ 53 /\
  perform_all example_sdk scenario empty_store = Some busy /\
  parseable (log_of "alice" busy) /\
  balance_of "alice" busy = total (log_of "alice" busy).
Proof.
  assert (H1 : Redis.GET (CreditsSDK.getBalanceKey "alice") empty_store = None)
    by reflexivity.
  assert (H2 : log_of "alice" empty_store = []) by reflexivity.
  assert (H3 : NoDup (call_txId <$> scenario))
    by (apply (bool_decide_unpack _); vm_compute; exact I).
  assert (H4 : whole_amounts example_sdk (calls_of "alice" scenario))
    by (repeat constructor).
  assert (H5 : volume example_sdk (calls_of "alice" scenario) <= 2 ^ 53)
    by (vm_compute; discriminate).
  assert (H6 : perform_all example_sdk scenario empty_store = Some busy)
    by (vm_compute; reflexivity).
  split; [exact H1|]. split; [exact H2|]. split; [exact H3|]. split; [exact H4|].
  split; [exact H5|]. split; [exact H6|].
  exact (balance_is_sum_of_log example_sdk "alice" scenario empty_store busy
           H1 H2 H3 H4 H5 H6).
Defined.

(** C2 as stated fails.  Two calls of [add] that read the same clock and
    draw the same random suffix write the same member: the balance
    counts both, the log holds one.  And amounts are doubles: one credit
    added to [2^53] leaves the balance at [2^53], while the log sums to
    [2^53 + 1]. *)
Lemma balance_not_sum_of_log :
  Redis.GET (CreditsSDK.getBalanceKey "alice") empty_store = None /\
  log_of "alice" empty_store = [] /\
  (exists s',
     perform_all example_sdk twice empty_store = Some s' /\
     balance_of "alice" s' = of_Z 10 /\
     total (log_of "alice" s') = of_Z 5) /\
  (exists s',
     perform_all example_sdk one_more empty_store = Some s' /\
     NoDup (call_txId <$> one_more) /\
     balance_of "alice" s' = of_Z (2 ^ 53) /\
     total (log_of "alice" s') = of_Z (2 ^ 53 + 1)).
Proof.
  split; [reflexivity|]. split; [reflexivity|]. split.
  - eexists. split; [vm_compute; reflexivity|].
    split; [vm_compute; reflexivity|].
    apply Qc_is_canon. vm_compute. reflexivity.
  - eexists. split; [vm_compute; reflexivity|].
    split; [apply (bool_decide_unpack _); vm_compute; exact I|].
    split; [vm_compute; reflexivity|].
    apply Qc_is_canon. vm_compute. reflexivity.
Qed.

(** ** Amounts written to the log *)

(** C4, as amended.  An entry that a call puts into a log is a
    transaction whose amount is negative for [deduct], positive for
    [add], hence never zero for these two, and non-negative for
    [initializeUser], where it is the starting balance and may be zero.
    A call that raises adds nothing. *)
Theorem appended_amounts (sdk : CreditsSDK.t) (c : call) (s s' : store)
    (outcome : result TransactionResult.t) (u : string) (e : entry) :
  perform sdk c s = (outcome, s') ->
  e ∈ log_of u s' -> e ∉ log_of u s ->
  exists r tx,
    outcome = Ok r /\ e.2 = Json tx /\
    match c with
    | Initialize _ _ _ => (0 <= Transaction.amount tx)%Qc
    | Deduct _ _ _ _ _ => (Transaction.amount tx < 0)%Qc /\ Transaction.amount tx <> 0%Qc
    | Add _ _ _ _ _ => (0 < Transaction.amount tx)%Qc /\ Transaction.amount tx <> 0%Qc
    end.
Proof.
  intros Hrun Hin Hnew. destruct outcome as [r|err].
  - destruct (perform_effect _ _ _ _ _ Hrun) as [[_ Hz] | (tx & (Hid & Hs & Hz) & Hamt)].
    + rewrite (log_of_unchanged _ _ _ Hz) in Hin. contradiction.
    + destruct (decide (call_user c = u)) as [<- | Hother].
      * unfold log_of at 1, zset in Hin. rewrite Hz, lookup_insert_eq in Hin.
        cbn [default from_option id] in Hin.
        apply elem_of_zadd in Hin as [-> | Hold]; [|contradiction].
        exists r, tx. split; [reflexivity|]. split; [reflexivity|].
        destruct c; cbn [amount_allowed] in Hamt.
        -- exact Hamt.
        -- split; [exact Hamt | exact (Qclt_not_eq _ _ Hamt)].
        -- split; [exact Hamt|]. intros H. symmetry in H. exact (Qclt_not_eq _ _ Hamt H).
      * exfalso. apply Hnew. revert Hin. unfold log_of, zset.
        rewrite Hz, lookup_insert_ne; [auto|].
        intros Hk. apply Hother, getTransactionsKey_inj, Hk.
  - destruct (perform_Throw _ _ _ _ _ Hrun) as [_ Hz].
    rewrite (log_of_unchanged _ _ _ Hz) in Hin. contradiction.
Qed.

(** The theorem at work: the entry that a deduction of 10 adds. *)
Lemma appended_amounts_witness :
  exists r tx,
    fst (perform example_sdk (Deduct (at_time 1001) "alice" (Fin (of_Z 10)) "x" None) funded)
    = Ok r /\
    Json (deduct_transaction (at_time 1001) (of_Z 10) "x" None) = Json tx /\
    (Transaction.amount tx < 0)%Qc /\ Transaction.amount tx <> 0%Qc.
Proof.
  pose (c := Deduct (at_time 1001) "alice" (Fin (of_Z 10)) "x" None).
  pose (e := (1001, Json (deduct_transaction (at_time 1001) (of_Z 10) "x" None))).
  assert (Hrun : perform example_sdk c funded
                 = (fst (perform example_sdk c funded), snd (perform example_sdk c funded)))
    by (destruct (perform example_sdk c funded); reflexivity).
  assert (Hin : e ∈ log_of "alice" (snd (perform example_sdk c funded))).
  { apply (bool_decide_unpack _). vm_compute. exact I. }
  assert (Hnew : e ∉ log_of "alice" funded).
  { apply (bool_decide_unpack _). vm_compute. exact I. }
  destruct (appended_amounts example_sdk c funded _ _ "alice" e Hrun Hin Hnew)
    as (r & tx & Hr & He & Hamt).
  exists r, tx. split; [exact Hr|]. split; [exact He | exact Hamt].
Defined.

(** C4 as stated fails: initialising a user with a starting balance of
    zero is accepted and writes a genesis transaction of amount zero. *)
Lemma genesis_amount_zero :
  fst (CreditsSDK.initializeUser example_sdk (at_time 1000) "bob" (Some (Fin 0)) empty_store)
  = Ok {| TransactionResult.txId := "tx_1000_k3j9x0q2a";
          TransactionResult.balance := Fin 0;
          TransactionResult.timestamp := 1000 |} /\
  log_of "bob"
    (snd (CreditsSDK.initializeUser example_sdk (at_time 1000) "bob" (Some (Fin 0))
            empty_store))
  = [(1000, Json (genesis_transaction (at_time 1000) 0))] /\
  Transaction.amount (genesis_transaction (at_time 1000) 0) = 0%Qc.
Proof. repeat split; vm_compute; reflexivity. Qed.

(** ** Initialising a user more than once *)






(** ** Reconciliation *)

Lemma ZRANGE_all (key : string) (s : store) :
  Redis.ZRANGE key 0 (-1) false s = snd <$> zset key s.
Proof.
  unfold Redis.ZRANGE. cbn [Z.ltb Z.compare].
  destruct (zset key s) as [|e zs] eqn:E; [reflexivity|].
  set (len := Z.of_nat (length (e :: zs))).
  assert (Hlen : 0 < len) by (subst len; cbn [length]; lia).
  replace ((len + -1 <? 0) || (len <=? 0)) with false
    by (symmetry; apply orb_false_iff; split; [apply Z.ltb_ge | apply Z.leb_gt]; lia).
  replace (Z.to_nat (len + -1 - 0 + 1)) with (length (e :: zs)) by (subst len; lia).
  cbn [Z.to_nat drop]. rewrite firstn_all. reflexivity.
Qed.

(** [JSON.parse] of src/client.ts is given what the client has already
    parsed, and fails on it, whether object or text. *)
Lemma JSON_parse_fails (value : deserialised) :
  exists error, JSON_parse (String_of value) = inr error.
Proof. destruct value; eexists; reflexivity. Qed.

Lemma zrange_all (key : string) (s : store) :
  Upstash.zrange key 0 (-1) ZRangeOptions.none s
  = (Returned (deserialise <$> (snd <$> zset key s)), sent s).
Proof.
  unfold Upstash.zrange. cbn [ZRangeOptions.none ZRangeOptions.offset ZRangeOptions.count
    ZRangeOptions.byScore ZRangeOptions.rev].
  rewrite ZRANGE_all, zset_sent. reflexivity.
Qed.

(** With an empty log the sum is zero; with any entry in the log the
    first one makes [calculateBalanceFromTransactions] raise. *)
Lemma calculate_empty (sdk : CreditsSDK.t) (u : string) (s : store) :
  log_of u s = [] ->
  CreditsSDK.calculateBalanceFromTransactions sdk u s = (Ok (Fin 0), sent s).
Proof.
  intros Hempty. unfold CreditsSDK.calculateBalanceFromTransactions, bind, await, try_catch.
  rewrite zrange_all. fold (log_of u s). rewrite Hempty. reflexivity.
Qed.

Lemma calculate_raises (sdk : CreditsSDK.t) (u : string) (s : store) :
  log_of u s <> [] ->
  exists message,
    CreditsSDK.calculateBalanceFromTransactions sdk u s
    = (Throw (BalanceVerificationError message u (Fin 0) (Fin 0)), sent s).
Proof.
  intros Hlog. unfold CreditsSDK.calculateBalanceFromTransactions, bind, await, try_catch.
  rewrite zrange_all. fold (log_of u s).
  destruct (log_of u s) as [|[score m] zs]; [contradiction|].
  cbn [fmap list_fmap snd lift reduce_throwing].
  destruct (JSON_parse_fails (deserialise m)) as [error ->].
  eexists. reflexivity.
Qed.

Lemma verifyBalance_raises (sdk : CreditsSDK.t) (u : string) (s : store) :
  valid_userId u -> log_of u s <> [] ->
  exists message,
    CreditsSDK.verifyBalance sdk u s
    = (Throw (BalanceVerificationError message u (Fin 0) (Fin 0)), sent (sent s)).
Proof.
  intros Hu Hlog.
  unfold CreditsSDK.verifyBalance, CreditsSDK.verifyBalance_with, bind. rewrite Hu. cbn [ret].
  unfold await at 1, try_catch, Upstash.get.
  destruct (calculate_raises sdk u (sent s)) as [message ->];
    [unfold log_of; rewrite zset_sent; exact Hlog|].
  exists message. reflexivity.
Qed.

(** C7 holds for the bundle and fails for src/client.ts.  In
    src/client.ts, for a valid user id and a log that is not empty,
    [rebuildBalance] and [verifyBalance] raise
    [BalanceVerificationError] with both balances zero: the members
    arrive parsed, and parsing them again fails on the first one.
    [rebuildBalance] raises after its first request, before it writes
    anything: balances and logs are as they were. *)
Theorem rebuildBalance_raises (sdk : CreditsSDK.t) (u : string) (s : store) :
  valid_userId u -> log_of u s <> [] ->
  (exists message,
     CreditsSDK.rebuildBalance sdk u s
     = (Throw (BalanceVerificationError message u (Fin 0) (Fin 0)), sent s)) /\
  (exists message,
     CreditsSDK.verifyBalance sdk u s
     = (Throw (BalanceVerificationError message u (Fin 0) (Fin 0)), sent (sent s))).
Proof.
  intros Hu Hlog. split; [|apply verifyBalance_raises; assumption].
  unfold CreditsSDK.rebuildBalance, CreditsSDK.rebuildBalance_among,
    CreditsSDK.rebuildBalance_with, bind.
  rewrite Hu. cbn [ret].
  destruct (calculate_raises sdk u s Hlog) as [message ->].
  exists message. reflexivity.
Qed.

(** The theorem at work on the scenario of the specification, where the
    balance is 140 and the log sums to 140. *)
Lemma rebuildBalance_raises_witness :
  valid_userId "alice" /\ log_of "alice" busy <> [] /\
  parseable (log_of "alice" busy) /\
  balance_of "alice" busy = of_Z 140 /\
  total (log_of "alice" busy) = of_Z 140 /\
  (exists message,
     CreditsSDK.rebuildBalance example_sdk "alice" busy
     = (Throw (BalanceVerificationError message "alice" (Fin 0) (Fin 0)), sent busy)) /\
  (exists message,
     CreditsSDK.verifyBalance example_sdk "alice" busy
     = (Throw (BalanceVerificationError message "alice" (Fin 0) (Fin 0)),
        sent (sent busy))).
Proof.
  assert (Hu : valid_userId "alice") by reflexivity.
  assert (Hlog : log_of "alice" busy <> []) by (vm_compute; discriminate).
  split; [exact Hu|]. split; [exact Hlog|].
  split; [unfold parseable; apply (bool_decide_unpack _); vm_compute; exact I|].
  split; [vm_compute; reflexivity|].
  split; [apply Qc_is_canon; vm_compute; reflexivity|].
  exact (rebuildBalance_raises example_sdk "alice" busy Hu Hlog).
Defined.

(** *** The bundle *)

Lemma units_of_Z (z : Z) : units (Fin (of_Z z)) = Z.abs z.
Proof. cbn [units]. rewrite as_integer_of_Z. reflexivity. Qed.

Lemma log_volume_nonneg (zs : list entry) : 0 <= log_volume zs.
Proof.
  unfold log_volume. induction (transactions zs) as [|t l IH]; cbn [foldr]; [lia|].
  pose proof (units_nonneg (Fin (Transaction.amount t))). lia.
Qed.

(** The reducer of the bundle adds up a log of integer amounts exactly,
    as long as the sizes of the amounts stay within [2^53]. *)
Lemma reduce_whole (u : string) (zs : list entry) :
  parseable zs -> whole_log zs ->
  forall a : Z,
    Z.abs a + log_volume zs <= 2 ^ 53 ->
    reduce_throwing (add_amount u) (deserialise <$> (snd <$> zs)) (Fin (of_Z a))
    = Ok (Fin (of_Z a + total zs)).
Proof.
  intros Hp. induction Hp as [|[score m] zs [tx Htx] _ IH]; intros Hwhole a Hvol;
    cbn [fmap list_fmap reduce_throwing].
  - do 2 f_equal. change (total []) with 0%Qc. ring.
  - cbn in Htx. destruct m as [tx'|raw]; [|discriminate Htx].
    unfold whole_log in Hwhole. unfold log_volume in Hvol.
    change (transactions ((score, Json tx') :: zs)) with (tx' :: transactions zs)
      in Hwhole, Hvol.
    apply Forall_cons in Hwhole as [[z Hz] Hwhole].
    cbn [foldr] in Hvol. fold (log_volume zs) in Hvol.
    pose proof (as_integer_of_Z_eq _ _ Hz) as Hamount.
    rewrite Hamount, units_of_Z in Hvol.
    cbn [snd deserialise add_amount Dist.parse_if_string Number.add].
    pose proof (log_volume_nonneg zs) as Hnn.
    rewrite Hamount, binary64_add by lia.
    rewrite (IH Hwhole) by lia.
    rewrite total_cons, Hamount, <- of_Z_add. do 2 f_equal. ring.
Qed.

Lemma Dist_calculate_whole (sdk : CreditsSDK.t) (u : string) (s : store) :
  parseable (log_of u s) -> whole_log (log_of u s) ->
  log_volume (log_of u s) <= 2 ^ 53 ->
  Dist.calculateBalanceFromTransactions sdk u s = (Ok (Fin (total (log_of u s))), sent s).
Proof.
  intros Hp Hwhole Hvol.
  unfold Dist.calculateBalanceFromTransactions, bind, await, try_catch.
  rewrite zrange_all. fold (log_of u s). unfold lift.
  change (reduce_throwing _ (deserialise <$> (snd <$> log_of u s)) (Fin 0))
    with (reduce_throwing (add_amount u) (deserialise <$> (snd <$> log_of u s))
            (Fin (of_Z 0))).
  rewrite (reduce_whole u _ Hp Hwhole 0) by (cbn [Z.abs]; lia).
  do 3 f_equal. change (of_Z 0) with 0%Qc. ring.
Qed.

Lemma Dist_verifyBalance_whole (sdk : CreditsSDK.t) (u : string) (s : store) :
  valid_userId u -> parseable (log_of u s) -> whole_log (log_of u s) ->
  log_volume (log_of u s) <= 2 ^ 53 ->
  Dist.verifyBalance sdk u s =
  (let difference := Number.sub (Fin (balance_of u s)) (Fin (total (log_of u s))) in
   Ok {| BalanceVerification.valid := Number.eqb difference (Fin 0);
         BalanceVerification.cached := Fin (balance_of u s);
         BalanceVerification.calculated := Fin (total (log_of u s));
         BalanceVerification.difference := difference |},
   sent (sent s)).
Proof.
  intros Hu Hp Hwhole Hvol.
  unfold Dist.verifyBalance, CreditsSDK.verifyBalance_with, bind. rewrite Hu. cbn [ret].
  unfold await at 1, try_catch, Upstash.get.
  rewrite (Dist_calculate_whole sdk u (sent s))
    by (unfold log_of; rewrite zset_sent; assumption).
  unfold log_of. rewrite zset_sent. reflexivity.
Qed.

Lemma sub_self (q : Qc) : Number.sub (Fin q) (Fin q) = Fin 0.
Proof.
  unfold Number.sub. cbn [Number.neg Number.add].
  replace (q + - q)%Qc with 0%Qc by ring. reflexivity.
Qed.

(** In the bundle, for a log of integer amounts within [2^53] in size:
    [rebuildBalance] returns the sum of the log and writes it as the
    balance, and a [verifyBalance] after it answers [valid = true] with
    the cached and the calculated balance both equal to that sum.  This
    is what the tests of the repository expect. *)
Lemma Dist_rebuildBalance_reconciles (sdk : CreditsSDK.t) (u : string) (s : store) :
  valid_userId u -> parseable (log_of u s) -> whole_log (log_of u s) ->
  log_volume (log_of u s) <= 2 ^ 53 ->
  let sum := total (log_of u s) in
  exists s',
    Dist.rebuildBalance sdk u s = (Ok (Fin sum), s') /\
    balance_of u s' = sum /\ log_of u s' = log_of u s /\
    exists s'',
      Dist.verifyBalance sdk u s' =
      (Ok {| BalanceVerification.valid := true;
             BalanceVerification.cached := Fin sum;
             BalanceVerification.calculated := Fin sum;
             BalanceVerification.difference := Fin 0 |}, s'').
Proof.
  intros Hu Hp Hwhole Hvol sum.
  set (written := Redis.SET (CreditsSDK.getBalanceKey u) sum (sent (sent s))).
  assert (Hlog : log_of u written = log_of u s) by reflexivity.
  assert (Hbal : balance_of u written = sum).
  { unfold balance_of, Redis.GET, written. cbn [scalars Redis.SET].
    rewrite lookup_insert_eq. reflexivity. }
  assert (Hverify : Dist.verifyBalance sdk u written =
                    (Ok {| BalanceVerification.valid := true;
                           BalanceVerification.cached := Fin sum;
                           BalanceVerification.calculated := Fin sum;
                           BalanceVerification.difference := Fin 0 |},
                     sent (sent written))).
  { rewrite Dist_verifyBalance_whole by (rewrite ?Hlog; assumption).
    rewrite Hlog, Hbal. fold sum. cbv zeta. rewrite sub_self. reflexivity. }
  exists (sent (sent written)). split.
  - unfold Dist.rebuildBalance, Dist.rebuildBalance_among, CreditsSDK.rebuildBalance_with.
    unfold bind at 1. rewrite Hu. cbn [ret].
    unfold bind at 1. rewrite (Dist_calculate_whole sdk u s Hp Hwhole Hvol). fold sum.
    unfold bind at 1, await at 1, try_catch, Upstash.set. fold written.
    unfold bind at 1. unfold bind at 1.
    fold (Dist.verifyBalance sdk u written). rewrite Hverify. reflexivity.
  - split; [exact Hbal|]. split; [exact Hlog|].
    eexists. rewrite Dist_verifyBalance_whole by assumption.
    change (log_of u (sent (sent written))) with (log_of u s).
    change (balance_of u (sent (sent written))) with (balance_of u written).
    rewrite Hbal. fold sum. cbv zeta. rewrite sub_self. reflexivity.
Qed.

(** The bundle on the scenario of the specification, and on the same
    store after the cache has been overwritten with 999. *)
Example Dist_reconciles_scenario :
  fst (Dist.verifyBalance example_sdk "alice" busy)
  = Ok {| BalanceVerification.valid := true;
          BalanceVerification.cached := Fin (of_Z 140);
          BalanceVerification.calculated := Fin (of_Z 140);
          BalanceVerification.difference := Fin 0 |} /\
  fst (Dist.verifyBalance example_sdk "alice" tampered)
  = Ok {| BalanceVerification.valid := false;
          BalanceVerification.cached := Fin (of_Z 999);
          BalanceVerification.calculated := Fin (of_Z 140);
          BalanceVerification.difference := Fin (of_Z 859) |} /\
  fst (Dist.rebuildBalance example_sdk "alice" tampered) = Ok (Fin (of_Z 140)) /\
  balance_of "alice" (snd (Dist.rebuildBalance example_sdk "alice" tampered)) = of_Z 140.
Proof. repeat split; vm_compute; reflexivity. Qed.

(** ** The catch block of [deduct] *)





(** ** Pricing *)

Lemma calculateCost_registered (engine : PricingEngine.t) (a : string)
    (cfg : PricingConfig.t) (value : number) (h : heap) (object : table) :
  h !! PricingEngine.config engine = Some object ->
  object !! a = Some cfg ->
  Number.lt value (Fin 0) = false ->
  PricingEngine.calculateCost engine a value h = Ok (PricingConfig.calculate cfg value).
Proof.
  intros Hobject Hcfg Hv. unfold PricingEngine.calculateCost, PricingEngine.lookup.
  rewrite Hobject. cbn [mbind option_bind]. unfold get_property.
  rewrite Hcfg, Hv. reflexivity.
Qed.





(** The built-in table on doubles.  The double nearest to 1.1 lies above
    1.1, so that ten times it lies above 11; the product is rounded to
    the double 11 before [Math.ceil] sees it.  A usage of [10^308]
    seconds costs [Infinity]. *)
Example built_in_cost_on_doubles :
  PricingEngine.calculateCost (PricingEngine.new None) "video_generation"
    (Fin (double 11 10)) initial_heap
  = Ok (Fin (of_Z 11)) /\
  Qceiling (double 11 10 * of_Z 10)%Qc = 12 /\
  PricingEngine.calculateCost (PricingEngine.new None) "video_generation"
    (Fin (double (10 ^ 308) 1)) initial_heap
  = Ok PosInf.
Proof. repeat split; vm_compute; reflexivity. Qed.

(** A name that every object inherits is found in the table, though it
    is no entry of it. *)
Example inherited_name_is_no_configuration :
  PRICING_CONFIG !! "toString" = None /\
  PricingEngine.hasPricingConfig (PricingEngine.new None) "toString" initial_heap
  = Some true /\
  PricingEngine.calculateCost (PricingEngine.new None) "toString" (Fin (of_Z 1))
    initial_heap
  = Throw (TypeError "config.calculate is not a function") /\
  PricingEngine.calculateCost (PricingEngine.new None) "toString" (Fin (of_Z (-1)))
    initial_heap
  = Throw (PricingConfigError "Value must be non-negative, got: -1" (Some "toString")) /\
  PricingEngine.calculateCost (PricingEngine.new None) "unknown" (Fin (of_Z 1))
    initial_heap
  = Throw (PricingConfigError "No pricing configuration found for action: unknown"
             (Some "unknown")).
Proof. repeat split; vm_compute; reflexivity. Qed.

(** Two engines built without a table of their own share
    [PRICING_CONFIG]: what one registers, the other finds, and an entry
    that one replaces changes the costs of the other. *)
Lemma engines_share_the_default_table (a : string) (cfg : PricingConfig.t)
    (value : number) (h h' : heap) (object : table) :
  h !! PRICING_CONFIG_ref = Some object ->
  a <> "__proto__" ->
  Number.lt value (Fin 0) = false ->
  PricingEngine.setPricingConfig (PricingEngine.new None) a cfg h = Some h' ->
  PricingEngine.calculateCost (PricingEngine.new None) a value h'
  = Ok (PricingConfig.calculate cfg value).
Proof.
  intros Hobject Ha Hv. unfold PricingEngine.setPricingConfig.
  cbn [PricingEngine.new PricingEngine.config default from_option id].
  rewrite Hobject. cbn [mbind option_bind].
  rewrite (bool_decide_eq_false_2 _ Ha). cbn [andb]. intros [= <-].
  apply (calculateCost_registered _ _ cfg _ _ (<[a := cfg]> object)).
  - cbn [PricingEngine.new PricingEngine.config default from_option id].
    apply lookup_insert_eq.
  - apply lookup_insert_eq.
  - exact Hv.
Qed.

(** ** [getTransactions] in src/client.ts *)

Lemma filter_none {A : Type} (P : A -> Prop) `{forall x, Decision (P x)} (l : list A) :
  (forall x, ~ P x) -> filter P l = [].
Proof.
  intros Hnone. induction l as [|x l IH]; [reflexivity|].
  rewrite filter_cons_False by apply Hnone. exact IH.
Qed.

(** Without time bounds the query asks for the scores from 0 down to
    the current time, and gets nothing. *)
Lemma getTransactions_unbounded_empty (sdk : CreditsSDK.t) (env : Env) (u : string)
    (n : Z) (s : store) :
  valid_userId u -> 0 < now env ->
  CreditsSDK.getTransactions sdk env u (with_limit n) s = (Ok [], sent s).
Proof.
  intros Hu Hnow. unfold CreditsSDK.getTransactions, bind. rewrite Hu. cbn [ret].
  unfold await, try_catch, Upstash.zrange, with_limit.
  cbn [TransactionQueryOptions.limit TransactionQueryOptions.startTime
       TransactionQueryOptions.endTime default from_option id
       ZRangeOptions.offset ZRangeOptions.count ZRangeOptions.byScore ZRangeOptions.rev].
  rewrite as_integer_of_Z. unfold Redis.ZRANGE_BYSCORE.
  rewrite filter_none by (intros e; cbn; lia).
  rewrite drop_nil, take_nil. destruct (n <? 0); reflexivity.
Qed.

(** Whatever the options and the store, [getTransactions] of
    src/client.ts never returns a transaction: [JSON.parse] is given
    what the client has already parsed, and fails on the first member
    of an answer that is not empty. *)
Lemma getTransactions_returns_nothing (sdk : CreditsSDK.t) (env : Env) (u : string)
    (options : TransactionQueryOptions.t) (s s' : store) (txs : list Transaction.t) :
  CreditsSDK.getTransactions sdk env u options s = (Ok txs, s') -> txs = [].
Proof.
  unfold CreditsSDK.getTransactions, bind.
  destruct (CreditsSDK.validateUserId u s) as [[[]|e] s0]; [|discriminate].
  unfold await, try_catch.
  match goal with
  | |- context [Upstash.zrange ?k ?a ?b ?o s0] =>
      destruct (Upstash.zrange k a b o s0) as [[results|ex|] s1]
  end; try discriminate.
  unfold lift. destruct results as [|value results]; cbn [map_throwing].
  - intros [= <- _]. reflexivity.
  - destruct (JSON_parse_fails value) as [error ->]. discriminate.
Qed.

(** C8, on the code of src/client.ts: the user has three transactions,
    and asking for the five most recent ones without time bounds returns
    none of them.  The compiled bundle returns the three, newest
    first. *)
Theorem getTransactions_recent_missing :
  Transaction.timestamp <$> transactions (log_of "alice" busy) = [1000; 1001; 1002] /\
  CreditsSDK.getTransactions example_sdk (at_time 2000) "alice" (with_limit 5) busy
  = (Ok [], sent busy) /\
  (Transaction.timestamp <$>
     match fst (Dist.getTransactions example_sdk (at_time 2000) "alice" (with_limit 5) busy)
     with
     | Ok txs => txs
     | Throw _ => []
     end)
  = [1002; 1001; 1000].
Proof.
  split; [vm_compute; reflexivity|]. split; [|vm_compute; reflexivity].
  apply getTransactions_unbounded_empty; reflexivity.
Qed.

(** C6, on the code of src/client.ts: a limit of zero and a negative
    limit are accepted.  The compiled bundle rejects both, and stops at
    1000 transactions when asked for 5000. *)
Theorem getTransactions_limit_unchecked :
  CreditsSDK.getTransactions example_sdk (at_time 2000) "alice" (with_limit 0) busy
  = (Ok [], sent busy) /\
  CreditsSDK.getTransactions example_sdk (at_time 2000) "alice" (with_limit (-3)) busy
  = (Ok [], sent busy) /\
  fst (Dist.getTransactions example_sdk (at_time 2000) "alice" (with_limit 0) busy)
  = Throw (TransactionError "limit must be a positive integer" None) /\
  fst (Dist.getTransactions example_sdk (at_time 2000) "alice" (with_limit (-3)) busy)
  = Throw (TransactionError "limit must be a positive integer" None) /\
  returned (Dist.getTransactions example_sdk (at_time 5000) "alice"
              (in_window 5000 1 1001) crowded) = Some 1000%nat /\
  returned (Dist.getTransactions example_sdk (at_time 5000) "alice" (with_limit 5000)
              crowded) = Some 1000%nat.
Proof.
  split; [apply getTransactions_unbounded_empty; reflexivity|].
  split; [apply getTransactions_unbounded_empty; reflexivity|].
  repeat split; vm_compute; reflexivity.
Qed.

(** ** [getTransactions] in the compiled bundle *)

Lemma as_integer_Some (q : Qc) (z : Z) : as_integer q = Some z -> this q = inject_Z z.
Proof.
  unfold as_integer. destruct q as [[n d] Hc]. cbn [this Qnum Qden].
  destruct (Pos.eqb d 1) eqn:E; [|discriminate].
  apply Pos.eqb_eq in E. subst d. intros [= ->]. reflexivity.
Qed.

Lemma effectiveLimit_bounds (limit : number) :
  Number.le limit (Fin 0) || negb (Number.isInteger limit) = false ->
  1 <= effectiveLimit limit <= 1000.
Proof.
  intros H. apply orb_false_iff in H as [Hle Hint].
  apply negb_false_iff in Hint.
  destruct limit as [q| | |]; try discriminate Hint.
  cbn [Number.isInteger] in Hint. apply bool_decide_eq_true in Hint as [z Hz].
  cbn [Number.le] in Hle. apply Qc_leb_gt in Hle.
  pose proof (as_integer_Some _ _ Hz) as Hq.
  assert (Hpos : 0 < z).
  { change 0%Qc with (of_Z 0) in Hle. unfold Qclt, Qlt in Hle.
    rewrite Hq, of_Z_this in Hle. cbn in Hle. lia. }
  unfold effectiveLimit, Number.min, Dist.MAX_RESULTS. cbn [Number.lt].
  destruct (Qc_ltb (of_Z 1000) q) eqn:Hgt.
  - rewrite as_integer_of_Z. cbn. lia.
  - rewrite Hz. cbn [default from_option id].
    apply Qc_ltb_ge in Hgt. unfold Qcle, Qle in Hgt.
    rewrite Hq, of_Z_this in Hgt. cbn in Hgt. lia.
Qed.

Lemma map_throwing_length {A B : Type} (f : A -> result B) (l : list A) (l' : list B) :
  map_throwing f l = Ok l' -> length l' = length l.
Proof.
  revert l'. induction l as [|x l IH]; intros l'; cbn [map_throwing].
  - intros [= <-]. reflexivity.
  - destruct (f x); [|discriminate].
    destruct (map_throwing f l) as [ys|]; [|discriminate].
    intros [= <-]. cbn [length]. f_equal. apply IH. reflexivity.
Qed.

Lemma ZRANGE_length (key : string) (stop : Z) (rev : bool) (s : store) :
  0 <= stop -> (length (Redis.ZRANGE key 0 stop rev s) <= Z.to_nat (stop + 1))%nat.
Proof.
  intros Hstop. unfold Redis.ZRANGE.
  set (zs := if rev then reverse (zset key s) else zset key s).
  set (len := Z.of_nat (length zs)).
  cbn [Z.ltb Z.compare].
  replace (stop <? 0) with false by (symmetry; apply Z.ltb_ge; lia).
  destruct ((Z.min stop (len - 1) <? 0) || (len <=? 0)); [cbn; lia|].
  rewrite length_fmap, length_take. lia.
Qed.

(** What the bundle does with the limit: a limit that is not a positive
    integer is rejected, and no answer is longer than 1000. *)
Lemma Dist_getTransactions_capped (sdk : CreditsSDK.t) (env : Env) (u : string)
    (options : TransactionQueryOptions.t) (s : store) :
  valid_userId u ->
  let limit := default (Fin (of_Z 50)) (TransactionQueryOptions.limit options) in
  (Number.le limit (Fin 0) || negb (Number.isInteger limit) = true ->
   Dist.getTransactions sdk env u options s
   = (Throw (TransactionError "limit must be a positive integer" None), s)) /\
  (forall txs s',
     Dist.getTransactions sdk env u options s = (Ok txs, s') ->
     (length txs <= 1000)%nat).
Proof.
  intros Hu limit. unfold Dist.getTransactions, bind. rewrite Hu. cbn [ret].
  fold limit. destruct (Number.le limit (Fin 0) || negb (Number.isInteger limit)) eqn:Hchk.
  - split; [reflexivity | discriminate].
  - split; [discriminate|]. intros txs s'.
    pose proof (effectiveLimit_bounds _ Hchk) as Hbounds.
    fold (effectiveLimit limit). set (eff := effectiveLimit limit) in *.
    unfold await, try_catch, Upstash.zrange, lift.
    cbn [ZRangeOptions.offset ZRangeOptions.count ZRangeOptions.byScore ZRangeOptions.rev].
    destruct (TransactionQueryOptions.startTime options),
             (TransactionQueryOptions.endTime options);
      cbn [bind ret];
      match goal with
      | |- context [map_throwing ?f ?l] =>
          destruct (map_throwing f l) as [ys|] eqn:Hmap; [|discriminate];
          intros [= <- _]; rewrite (map_throwing_length _ _ _ Hmap)
      end;
      rewrite ?length_take, ?length_fmap; try lia.
    pose proof (ZRANGE_length (CreditsSDK.getTransactionsKey u) (eff - 1) true (sent s)).
    lia.
Qed.

Lemma parseable_members (zs : list entry) :
  parseable zs -> deserialise <$> (snd <$> zs) = Object <$> transactions zs.
Proof.
  unfold transactions. induction 1 as [|[score m] zs [tx Htx] _ IH]; [reflexivity|].
  destruct m as [tx'|raw]; [|discriminate Htx].
  cbn [fmap list_fmap omap list_omap parsed snd deserialise]. f_equal. exact IH.
Qed.

Lemma map_throwing_Object (f : deserialised -> result Transaction.t)
    (txs : list Transaction.t) :
  (forall tx, f (Object tx) = Ok tx) -> map_throwing f (Object <$> txs) = Ok txs.
Proof.
  intros Hf. induction txs as [|tx txs IH]; [reflexivity|].
  cbn [fmap list_fmap map_throwing] in *. rewrite Hf, IH. reflexivity.
Qed.

(** Without time bounds the bundle returns the [limit] highest-ranked
    transactions (at most 1000), highest rank first. *)
Lemma Dist_getTransactions_recent (sdk : CreditsSDK.t) (env : Env) (u : string) (n : Z)
    (s : store) :
  valid_userId u -> 1 <= n -> parseable (log_of u s) ->
  Dist.getTransactions sdk env u (with_limit n) s
  = (Ok (take (Z.to_nat (Z.min n 1000)) (reverse (transactions (log_of u s)))), sent s).
Proof.
  intros Hu Hn Hp.
  assert (Hchk : Number.le (Fin (of_Z n)) (Fin 0)
                 || negb (Number.isInteger (Fin (of_Z n))) = false).
  { apply orb_false_iff. split.
    - cbn [Number.le]. apply Qc_leb_gt. change 0%Qc with (of_Z 0).
      unfold Qclt, Qlt. rewrite !of_Z_this. cbn. lia.
    - cbn [Number.isInteger]. rewrite as_integer_of_Z. reflexivity. }
  assert (Heff : effectiveLimit (Fin (of_Z n)) = Z.min n 1000).
  { unfold effectiveLimit, Number.min, Dist.MAX_RESULTS. cbn [Number.lt].
    destruct (Qc_ltb (of_Z 1000) (of_Z n)) eqn:Hgt; rewrite as_integer_of_Z;
      cbn [default from_option id].
    - apply Qc_ltb_lt in Hgt. unfold Qclt, Qlt in Hgt. rewrite !of_Z_this in Hgt.
      cbn in Hgt. lia.
    - apply Qc_ltb_ge in Hgt. unfold Qcle, Qle in Hgt. rewrite !of_Z_this in Hgt.
      cbn in Hgt. lia. }
  unfold Dist.getTransactions, bind. rewrite Hu. cbn [ret].
  unfold with_limit.
  cbn [TransactionQueryOptions.limit TransactionQueryOptions.startTime
       TransactionQueryOptions.endTime default from_option id].
  rewrite Hchk. fold (effectiveLimit (Fin (of_Z n))). rewrite Heff.
  unfold await, try_catch, Upstash.zrange, lift.
  cbn [ZRangeOptions.offset ZRangeOptions.count ZRangeOptions.byScore ZRangeOptions.rev].
  unfold Redis.ZRANGE. rewrite zset_sent. fold (log_of u s).
  set (k := Z.min n 1000). set (len := Z.of_nat (length (reverse (log_of u s)))).
  cbn [Z.ltb Z.compare].
  replace (k - 1 <? 0) with false by (symmetry; apply Z.ltb_ge; lia).
  assert (Hmembers : deserialise <$> (snd <$> reverse (log_of u s))
                     = Object <$> reverse (transactions (log_of u s))).
  { rewrite !fmap_reverse, parseable_members by exact Hp. reflexivity. }
  assert (Hlen : length (reverse (transactions (log_of u s))) = Z.to_nat len).
  { subst len. rewrite Nat2Z.id, <- (length_fmap Object), <- Hmembers, !length_fmap.
    reflexivity. }
  destruct ((Z.min (k - 1) (len - 1) <? 0) || (len <=? 0)) eqn:Hempty.
  - assert (len = 0).
    { apply orb_true_iff in Hempty as [H | H];
        [apply Z.ltb_lt in H | apply Z.leb_le in H]; subst len; lia. }
    destruct (reverse (transactions (log_of u s))); [|cbn in Hlen; lia].
    rewrite take_nil. reflexivity.
  - apply orb_false_iff in Hempty as [H1 H2].
    apply Z.ltb_ge in H1. apply Z.leb_gt in H2.
    change (Z.to_nat 0) with 0%nat.
    rewrite drop_0, !fmap_take, Hmembers, <- fmap_take.
    rewrite map_throwing_Object by reflexivity. f_equal. f_equal.
    destruct (Z.le_ge_cases (k - 1) (len - 1)) as [Hle | Hge].
    + rewrite Z.min_l by exact Hle. f_equal. lia.
    + rewrite Z.min_r by exact Hge.
      rewrite !take_ge by (rewrite Hlen; lia). reflexivity.
Qed.

